(** * DataWise sales-query service: the question engine of [main.py]

    A shallow embedding of [answer_question] and [handle_query] together
    with the fragments of Python's [re] module and of pandas they call.

    Modelling conventions.
    - A Python [str] is a list of code points; code points are restricted
      to the Latin-1 range, so a character is a Rocq [ascii].
    - A pandas frame is a list of labelled rows plus a flag telling
      whether the frame has columns at all ([pd.DataFrame()] has none).
    - The rows are the validated records of the data file: every [sales]
      is a number and every [date] a timestamp. The sales are integers
      that fit in 64 bits, so that [pd.to_numeric] makes the column an
      int64 column; its arithmetic wraps around as numpy's does. Stores
      with fractional sales, whose column is float64, are outside the
      model.
    - Double-precision arithmetic is not interpreted. The only doubles
      the integer stores produce are the mean of template 3 and its
      rounding; such a value is recorded as the computation that yields
      it ([float64]), and nothing is claimed about its digits.
    - Python exceptions are the left summand of the [exc] monad. *)

From Stdlib Require Import List Ascii String Bool Arith ZArith Lia.
Import ListNotations.

Open Scope nat_scope.

(* ================================================================== *)
(** ** Python strings *)

Definition pystr := list ascii.

(** Literal strings are written [py "..."]. *)
Definition py (s : string) : pystr := list_ascii_of_string s.

Definition code (c : ascii) : nat := nat_of_ascii c.

Definition between (lo hi n : nat) : bool := (lo <=? n) && (n <=? hi).

Fixpoint str_eqb (a b : pystr) : bool :=
  match a, b with
  | [], [] => true
  | x :: a', y :: b' => Ascii.eqb x y && str_eqb a' b'
  | _, _ => false
  end.

(* ================================================================== *)
(** ** The fragment of [re] used by the service *)

Module Re.

(** [\w] on a [str] pattern: alphanumeric code points and the underscore.
    Below 256 these are the ASCII digits and letters, [_], and the Latin-1
    letters and numeric signs. *)
Definition is_word (c : ascii) : bool :=
  let n := code c in
  between 48 57 n || between 65 90 n || (n =? 95) || between 97 122 n
  || (n =? 170) || between 178 179 n || (n =? 181) || between 185 186 n
  || between 188 190 n || between 192 214 n || between 216 246 n
  || between 248 255 n.

(** [\s] on a [str] pattern: the code points for which [str.isspace]
    holds. *)
Definition is_space (c : ascii) : bool :=
  let n := code c in
  between 9 13 n || between 28 32 n || (n =? 133) || (n =? 160).

(** Under [re.IGNORECASE] two characters agree when their lower-case forms
    do. The literals of the patterns below are ASCII, and below code point
    256 only [A-Z] fold onto ASCII characters: folding these is enough. *)
Definition lower (c : ascii) : ascii :=
  let n := code c in
  if between 65 90 n then ascii_of_nat (n + 32) else c.

Definition IGNORECASE : bool := true.

Definition chr_eqb (flags : bool) (a b : ascii) : bool :=
  if flags then Ascii.eqb (lower a) (lower b) else Ascii.eqb a b.

(** Members of a bracketed set. *)
Inductive set_item : Type :=
| SetWord                 (* \w *)
| SetSpace                (* \s *)
| SetChar (c : ascii).    (* a literal member *)

Definition cset := list set_item.

Definition in_item (flags : bool) (c : ascii) (i : set_item) : bool :=
  match i with
  | SetWord => is_word c
  | SetSpace => is_space c
  | SetChar a => chr_eqb flags a c
  end.

Definition in_cset (flags : bool) (cs : cset) (c : ascii) : bool :=
  existsb (in_item flags c) cs.

(** The patterns of the service are sequences of literal text and of
    capture groups [( set + )]. *)
Inductive node : Type :=
| Lit (s : pystr)
| Group (cs : cset).

Definition pattern := list node.

(** Literal text at the head of [s]; the result is the unread rest. *)
Fixpoint lit_match (flags : bool) (l s : pystr) : option pystr :=
  match l, s with
  | [], _ => Some s
  | a :: l', b :: s' => if chr_eqb flags a b then lit_match flags l' s' else None
  | _ :: _, [] => None
  end.

(** Length of the longest prefix of [s] made of characters of [f]. *)
Fixpoint span (f : ascii -> bool) (s : pystr) : nat :=
  match s with
  | c :: s' => if f c then S (span f s') else 0
  | [] => 0
  end.

(** Greedy [+]: the longest repetition is tried first, then one
    character is given back at a time; no repetition is not a match. *)
Fixpoint backtrack (k : pystr -> option (list pystr)) (s : pystr) (n : nat)
  : option (list pystr) :=
  match n with
  | 0 => None
  | S n' =>
      match k (skipn n s) with
      | Some gs => Some (firstn n s :: gs)
      | None => backtrack k s n'
      end
  end.

(** Match of the pattern starting exactly at the head of [s]; the result
    is the tuple of captured groups. *)
Fixpoint match_here (flags : bool) (p : pattern) (s : pystr)
  : option (list pystr) :=
  match p with
  | [] => Some []
  | Lit l :: p' =>
      match lit_match flags l s with
      | Some rest => match_here flags p' rest
      | None => None
      end
  | Group cs :: p' =>
      backtrack (match_here flags p') s (span (in_cset flags cs) s)
  end.

(** [re.search(p, s, flags)]: the match at the leftmost position that has
    one, [None] when no position has; the value is [match.groups()]. *)
Fixpoint search (p : pattern) (s : pystr) (flags : bool)
  : option (list pystr) :=
  match s with
  | [] => match_here flags p []
  | _ :: s' =>
      match match_here flags p s with
      | Some gs => Some gs
      | None => search p s' flags
      end
  end.

End Re.

(** Sets and patterns of [answer_question]. *)
Definition set_w : Re.cset := [Re.SetWord].
Definition set_ws : Re.cset := [Re.SetWord; Re.SetSpace].
Definition set_rep : Re.cset :=
  [Re.SetWord; Re.SetSpace; Re.SetChar "."%char; Re.SetChar "'"%char;
   Re.SetChar "-"%char].

(** [r"What is the total sales of (\w+) in (\w+)\?"] *)
Definition pattern1 : Re.pattern :=
  [Re.Lit (py "What is the total sales of "); Re.Group set_w;
   Re.Lit (py " in "); Re.Group set_w; Re.Lit (py "?")].

(** [r"How many sales reps are there in ([\w\s]+)\?"] *)
Definition pattern2 : Re.pattern :=
  [Re.Lit (py "How many sales reps are there in "); Re.Group set_ws;
   Re.Lit (py "?")].

(** [r"What is the average sales for (\w+) in ([\w\s]+)\?"] *)
Definition pattern3 : Re.pattern :=
  [Re.Lit (py "What is the average sales for "); Re.Group set_w;
   Re.Lit (py " in "); Re.Group set_ws; Re.Lit (py "?")].

(** [r"On what date did ([\w\s.'-]+) make the highest sale in ([\w\s]+)\?"] *)
Definition pattern4 : Re.pattern :=
  [Re.Lit (py "On what date did "); Re.Group set_rep;
   Re.Lit (py " make the highest sale in "); Re.Group set_ws;
   Re.Lit (py "?")].

(* ================================================================== *)
(** ** Python exceptions *)

Inductive PyError : Type := KeyError | ValueError | IndexError.

Definition exc (A : Type) : Type := (PyError + A)%type.

Definition ret {A : Type} (a : A) : exc A := inr a.
Definition raise {A : Type} (e : PyError) : exc A := inl e.

Definition bind {A B : Type} (m : exc A) (k : A -> exc B) : exc B :=
  match m with
  | inl e => inl e
  | inr a => k a
  end.

Notation "x <- m ;; k" := (bind m (fun x => k))
  (at level 61, m at next level, right associativity).
Notation "' pat <- m ;; k" := (bind m (fun x => match x with pat => k end))
  (at level 61, pat pattern, m at next level, right associativity).

(* ================================================================== *)
(** ** Machine numbers *)

(** [np.int64]: the integers from [-2^63] to [2^63 - 1]; sums wrap
    around. *)
Module Int64.

Definition modulus : Z := 2 ^ 64.
Definition half_modulus : Z := 2 ^ 63.

Definition in_range (z : Z) : bool :=
  ((- half_modulus <=? z) && (z <? half_modulus))%Z.

Record t : Type := mk { to_Z : Z; range : in_range to_Z = true }.

(** The representative of [z] modulo [2^64] that lies in range. *)
Definition wrap (z : Z) : Z :=
  ((z + half_modulus) mod modulus - half_modulus)%Z.

Definition of_Z (z : Z) : t.
Proof.
  refine (mk (wrap z) _).
  abstract (unfold in_range, wrap;
            pose proof (Z.mod_pos_bound (z + half_modulus) modulus eq_refl);
            apply andb_true_iff; split;
            [apply Z.leb_le | apply Z.ltb_lt];
            unfold modulus, half_modulus in *; lia).
Defined.

Definition add (a b : t) : t := of_Z (to_Z a + to_Z b).

End Int64.

(** [int(x)] of an [np.int64]. *)
Definition py_int (x : Int64.t) : Z := Int64.to_Z x.

(** A double, recorded as the computation that yields it. *)
Inductive float64 : Type :=
| mean_of (values : list Z)                (* [s.mean()], [s] an int64 series *)
| round_to (x : float64) (ndigits : nat).  (* [round(x, ndigits)] *)

(** [round(x, ndigits)] *)
Definition py_round (x : float64) (ndigits : nat) : float64 :=
  round_to x ndigits.

(* ================================================================== *)
(** ** The fragment of pandas used by the service *)

(** A [Timestamp] of the [date] column; only its calendar day is read. *)
Record Timestamp : Type := { year : nat; month : nat; day : nat }.

(** One record of the data file, after [pd.to_numeric] and
    [pd.to_datetime]. *)
Record Row : Type := {
  product : pystr;
  city : pystr;
  region : pystr;
  rep : pystr;
  sales : Int64.t;
  date : Timestamp
}.

Module Pd.

(** A column: its values with their index labels. *)
Definition Series (A : Type) : Type := list (nat * A).

(** A frame: labelled rows; [has_columns] is false for the frame made
    from no record at all. *)
Record DataFrame : Type := { has_columns : bool; rows : list (nat * Row) }.

(** [pd.DataFrame(data)]: the records in order, labelled [0 .. n-1];
    [pd.DataFrame()] is [Pd.DataFrame_of []]. *)
Definition DataFrame_of (data : list Row) : DataFrame :=
  {| has_columns := match data with [] => false | _ :: _ => true end;
     rows := combine (seq 0 (List.length data)) data |}.

(** [df.empty]: one of the two axes has length 0. *)
Definition empty (df : DataFrame) : bool :=
  negb (has_columns df) || match rows df with [] => true | _ :: _ => false end.

(** [df[name]]; a frame without columns raises [KeyError]. *)
Definition column {A : Type} (df : DataFrame) (f : Row -> A) : exc (Series A) :=
  if has_columns df
  then ret (map (fun lr => (fst lr, f (snd lr))) (rows df))
  else raise KeyError.

(** [df[mask]] where [mask] is built from comparisons of columns of [df]
    with constants, joined by [&]: the rows satisfying it, with their
    labels; reading the columns raises [KeyError] when there are none. *)
Definition select (df : DataFrame) (mask : Row -> bool) : exc DataFrame :=
  if has_columns df
  then ret {| has_columns := true;
              rows := filter (fun lr => mask (snd lr)) (rows df) |}
  else raise KeyError.

(** [s.sum()] of an int64 series: an [np.int64], each addition wrapping
    around. *)
Definition sum (s : Series Int64.t) : Int64.t :=
  fold_left Int64.add (map snd s) (Int64.of_Z 0).

(** [s.mean()] of an int64 series: a double; [None] is NaN, the mean of
    no value. *)
Definition mean (s : Series Int64.t) : option float64 :=
  match s with
  | [] => None
  | _ :: _ => Some (mean_of (map (fun lv => Int64.to_Z (snd lv)) s))
  end.

(** The values of a list, each kept once. *)
Fixpoint unique (l : list pystr) : list pystr :=
  match l with
  | [] => []
  | x :: t => if existsb (str_eqb x) t then unique t else x :: unique t
  end.

(** [s.nunique()] *)
Definition nunique (s : Series pystr) : nat := List.length (unique (map snd s)).

(** [s.idxmax()]: label of the first occurrence of the maximum;
    [ValueError] on an empty series. *)
Definition idxmax (s : Series Int64.t) : exc nat :=
  match s with
  | [] => raise ValueError
  | lv :: t =>
      ret (fst (fold_left
                  (fun best cur =>
                     if (Int64.to_Z (snd best) <? Int64.to_Z (snd cur))%Z
                     then cur else best)
                  t lv))
  end.

(** [df.loc[label]]; [KeyError] when no row carries the label. *)
Definition loc (df : DataFrame) (label : nat) : exc Row :=
  match find (fun lr => fst lr =? label) (rows df) with
  | Some lr => ret (snd lr)
  | None => raise KeyError
  end.

End Pd.

(** Start-up: the records of the data file make the frame; when the file
    is missing ([FileNotFoundError], here [None]) the frame is
    [pd.DataFrame()]. A file holding no record gives a frame without a
    [sales] column, and converting that column raises. *)
Definition load_dataset (file : option (list Row)) : exc Pd.DataFrame :=
  match file with
  | Some [] => raise KeyError
  | Some data => ret (Pd.DataFrame_of data)
  | None => ret (Pd.DataFrame_of [])
  end.

Definition digit (n : nat) : ascii := ascii_of_nat (48 + n mod 10).

(** The decimal numeral of [n], without padding; [fuel] bounds the
    number of digits. *)
Fixpoint decimal_digits (fuel n : nat) : pystr :=
  match fuel with
  | 0 => []
  | S fuel' =>
      if n <? 10 then [digit n]
      else decimal_digits fuel' (n / 10) ++ [digit n]
  end.

Definition str_of_nat (n : nat) : pystr := decimal_digits (S n) n.

(** [t.strftime('%Y-%m-%d')]: [%Y] is the year in decimal, not padded
    (the C library pads no year below 1000); [%m] and [%d] are two
    digits. *)
Definition strftime_Ymd (t : Timestamp) : pystr :=
  str_of_nat (year t)
  ++ ["-"%char; digit (month t / 10); digit (month t); "-"%char;
      digit (day t / 10); digit (day t)].

(* ================================================================== *)
(** ** The question engine *)

(** What [answer_question] returns: [int], [float] or [str]. *)
Inductive Answer : Type :=
| AInt (n : Z)
| AFloat (x : float64)
| AStr (s : pystr).

(** [a, b = match.groups()] *)
Definition unpack2 (groups : list pystr) : exc (pystr * pystr) :=
  match groups with
  | [a; b] => ret (a, b)
  | _ => raise ValueError
  end.

(** [match.groups()[0]] *)
Definition item0 (groups : list pystr) : exc pystr :=
  match groups with
  | a :: _ => ret a
  | [] => raise IndexError
  end.

Definition msg_no_sales : pystr :=
  py "No sales data found for this rep in this city.".
Definition msg_sorry : pystr := py "Sorry, I can't answer that question.".
Definition msg_not_loaded : pystr := py "Error: Dataset not loaded.".

(** Body of the branch taken when pattern 1 matches. *)
Definition total_sales (df : Pd.DataFrame) (groups : list pystr) : exc Answer :=
  '(product_, city_) <- unpack2 groups ;;
  sub <- Pd.select df (fun r => str_eqb (product r) product_
                                && str_eqb (city r) city_) ;;
  col <- Pd.column sub sales ;;
  ret (AInt (py_int (Pd.sum col))).

(** Body of the branch taken when pattern 2 matches. *)
Definition count_reps (df : Pd.DataFrame) (groups : list pystr) : exc Answer :=
  region_ <- item0 groups ;;
  sub <- Pd.select df (fun r => str_eqb (region r) region_) ;;
  col <- Pd.column sub rep ;;
  ret (AInt (Z.of_nat (Pd.nunique col))).

(** Body of the branch taken when pattern 3 matches. *)
Definition average_sales (df : Pd.DataFrame) (groups : list pystr) : exc Answer :=
  '(product_, region_) <- unpack2 groups ;;
  sub <- Pd.select df (fun r => str_eqb (product r) product_
                                && str_eqb (region r) region_) ;;
  col <- Pd.column sub sales ;;
  match Pd.mean col with
  | Some result => ret (AFloat (py_round result 2))
  | None => ret (AInt 0)
  end.

(** Body of the branch taken when pattern 4 matches. *)
Definition highest_sale_date (df : Pd.DataFrame) (groups : list pystr) : exc Answer :=
  '(rep_, city_) <- unpack2 groups ;;
  subset <- Pd.select df (fun r => str_eqb (rep r) rep_
                                   && str_eqb (city r) city_) ;;
  if negb (Pd.empty subset) then
    col <- Pd.column subset sales ;;
    label <- Pd.idxmax col ;;
    highest_sale_row <- Pd.loc subset label ;;
    ret (AStr (strftime_Ymd (date highest_sale_row)))
  else
    ret (AStr msg_no_sales).

(** [answer_question]: the four patterns are tried in turn, each with
    [re.search] and [re.IGNORECASE]; the first that matches answers. *)
Definition answer_question (df : Pd.DataFrame) (question : pystr) : exc Answer :=
  match Re.search pattern1 question Re.IGNORECASE with
  | Some groups => total_sales df groups
  | None =>
  match Re.search pattern2 question Re.IGNORECASE with
  | Some groups => count_reps df groups
  | None =>
  match Re.search pattern3 question Re.IGNORECASE with
  | Some groups => average_sales df groups
  | None =>
  match Re.search pattern4 question Re.IGNORECASE with
  | Some groups => highest_sale_date df groups
  | None => ret (AStr msg_sorry)
  end end end end.

(** The body returned by the endpoint, and the [X-Email] header it sets. *)
Record Response : Type := {
  answer : Answer;
  email : pystr;
  header_X_Email : pystr
}.

Definition email_address : pystr := py "22f3003185@ds.study.iitm.ac.in".

Definition handle_query (df : Pd.DataFrame) (q : pystr) : exc Response :=
  if Pd.empty df then
    ret {| answer := AStr msg_not_loaded; email := email_address;
           header_X_Email := email_address |}
  else
    answer <- answer_question df q ;;
    ret {| answer := answer; email := email_address;
           header_X_Email := email_address |}.

(** The response of the endpoint carrying answer [a]. *)
Definition response (a : Answer) : Response :=
  {| answer := a; email := email_address; header_X_Email := email_address |}.

(* ================================================================== *)
(** ** Vocabulary of the specification *)

Definition pystr_eq_dec : forall a b : pystr, {a = b} + {a <> b} :=
  list_eq_dec ascii_dec.

Definition is_eq (a b : pystr) : bool :=
  if pystr_eq_dec a b then true else false.

(** Rows whose field [f] is exactly [a]. *)
Definition rows_with (f : Row -> pystr) (a : pystr) (data : list Row)
  : list Row :=
  filter (fun r => is_eq (f r) a) data.

(** Rows whose field [f] is exactly [a] and whose field [g] is exactly [b],
    in store order. *)
Definition rows_with2 (f g : Row -> pystr) (a b : pystr) (data : list Row)
  : list Row :=
  filter (fun r => is_eq (f r) a && is_eq (g r) b) data.

(** The sales of a row, as an integer. *)
Definition amount (r : Row) : Z := Int64.to_Z (sales r).

(** Sum of a list of integers. *)
Definition total (l : list Z) : Z := fold_right Z.add 0%Z l.

(** [n] is [s] brought into the 64-bit range by a multiple of [2^64]. *)
Definition wraps_to (s n : Z) : Prop :=
  (- 2 ^ 63 <= n < 2 ^ 63)%Z /\ exists k : Z, (n = s + k * 2 ^ 64)%Z.

(** [r] is the first row of [l] whose sales are the largest of [l]. *)
Definition first_maximum (l : list Row) (r : Row) : Prop :=
  exists i : nat,
    nth_error l i = Some r /\
    (forall r', In r' l -> (amount r' <= amount r)%Z) /\
    (forall j r', j < i -> nth_error l j = Some r' -> (amount r' < amount r)%Z).

(** [n] is the number of distinct values occurring in [l]. *)
Definition distinct_count (l : list pystr) (n : nat) : Prop :=
  exists vs : list pystr,
    NoDup vs /\ (forall x, In x vs <-> In x l) /\ List.length vs = n.

Definition is_digit (c : ascii) : bool := between 48 57 (code c).

(** Value of a text read as a decimal numeral. *)
Definition decimal (s : pystr) : nat :=
  fold_left (fun acc c => 10 * acc + (code c - 48)) s 0.

(** [s] is [t] written year-month-day: the year in decimal, then the
    month and the day on two digits, joined by hyphens; for the years
    1000 to 9999 the year takes four digits and [s] reads
    [YYYY-MM-DD]. *)
Definition formats_as_Ymd (t : Timestamp) (s : pystr) : Prop :=
  exists Y M D : pystr,
    s = Y ++ py "-" ++ M ++ py "-" ++ D /\
    forallb is_digit (Y ++ M ++ D) = true /\
    decimal Y = year t /\
    (1000 <= year t -> year t < 100 * 100 -> List.length Y = 4) /\
    List.length M = 2 /\ List.length D = 2 /\
    (month t < 100 -> decimal M = month t) /\
    (day t < 100 -> decimal D = day t).

(** One step of a left-to-right search for the largest element: the
    current element replaces the best so far only when strictly larger. *)
Definition keep_larger {A : Type} (v : A -> Z) (best cur : A) : A :=
  if (v best <? v cur)%Z then cur else best.

(** The two texts differ at most in the case of their letters. *)
Definition same_nocase (a b : pystr) : Prop := map Re.lower a = map Re.lower b.

(** Two results of a search agree up to the case of the captured texts. *)
Definition same_outcome (a b : option (list pystr)) : Prop :=
  match a, b with
  | Some gs, Some gs' => Forall2 same_nocase gs gs'
  | None, None => True
  | _, _ => False
  end.

(** Characters admitted by [\w], by [[\w\s]] and by [[\w\s.'-]]. *)
Definition word_char (c : ascii) : Prop := Re.is_word c = true.

Definition word_or_space (c : ascii) : Prop :=
  Re.is_word c = true \/ Re.is_space c = true.

Definition rep_char (c : ascii) : Prop :=
  Re.is_word c = true \/ Re.is_space c = true \/
  c = "."%char \/ c = "'"%char \/ c = "-"%char.

(** [re.search] does not find the pattern in the question. *)
Definition no_match (p : Re.pattern) (question : pystr) : Prop :=
  Re.search p question Re.IGNORECASE = None.

(** The sets of the capture groups of a pattern, in order. *)
Fixpoint group_sets (p : Re.pattern) : list Re.cset :=
  match p with
  | [] => []
  | Re.Lit _ :: p' => group_sets p'
  | Re.Group cs :: p' => cs :: group_sets p'
  end.

(** [g] may be captured by a group over [cs]: it is not empty and all
    its characters belong to [cs]. *)
Definition captured_by (flags : bool) (cs : Re.cset) (g : pystr) : Prop :=
  g <> [] /\ forallb (Re.in_cset flags cs) g = true.

(** The four templates, in the order in which they are tried. *)
Inductive template : Type := T1 | T2 | T3 | T4.

Definition pattern_of (k : template) : Re.pattern :=
  match k with
  | T1 => pattern1
  | T2 => pattern2
  | T3 => pattern3
  | T4 => pattern4
  end.

Definition aggregation (k : template)
  : Pd.DataFrame -> list pystr -> exc Answer :=
  match k with
  | T1 => total_sales
  | T2 => count_reps
  | T3 => average_sales
  | T4 => highest_sale_date
  end.

Definition earlier (k : template) : list template :=
  match k with
  | T1 => []
  | T2 => [T1]
  | T3 => [T1; T2]
  | T4 => [T1; T2; T3]
  end.

(** The question built from template 1 with the given wording of its
    fixed parts, followed by any text. *)
Definition phrase1 (w1 product_ w2 city_ tail : pystr) : pystr :=
  w1 ++ product_ ++ w2 ++ city_ ++ py "?" ++ tail.

(** The question built from template 4. *)
Definition phrase4 (rep_ city_ : pystr) : pystr :=
  py "On what date did " ++ rep_ ++ py " make the highest sale in "
  ++ city_ ++ py "?".

(** The questions built from templates 2, 3 and 4 with the given wording
    of their fixed parts, followed by any text. *)
Definition phrase2 (w1 region_ tail : pystr) : pystr :=
  w1 ++ region_ ++ py "?" ++ tail.

Definition phrase3 (w1 product_ w2 region_ tail : pystr) : pystr :=
  w1 ++ product_ ++ w2 ++ region_ ++ py "?" ++ tail.

Definition phrase4_cased (w1 rep_ w2 city_ tail : pystr) : pystr :=
  w1 ++ rep_ ++ w2 ++ city_ ++ py "?" ++ tail.

(** [m] is an instance of the pattern in which the groups capture [gs]:
    each literal stands in [m] in some letter case, each group as a
    non-empty run of characters of its set. *)
Fixpoint instance_of (p : Re.pattern) (gs : list pystr) (m : pystr) : Prop :=
  match p with
  | [] => gs = [] /\ m = []
  | Re.Lit l :: p' =>
      exists w m', m = w ++ m' /\ same_nocase w l /\ instance_of p' gs m'
  | Re.Group cs :: p' =>
      exists g gs' m',
        gs = g :: gs' /\ m = g ++ m' /\
        captured_by Re.IGNORECASE cs g /\ instance_of p' gs' m'
  end.

(** Template [k] is the first, in the order of the code, whose pattern is
    found in [q], and [gs] is what it captures. *)
Definition answers (k : template) (gs : list pystr) (q : pystr) : Prop :=
  (forall j, In j (earlier k) -> no_match (pattern_of j) q) /\
  Re.search (pattern_of k) q Re.IGNORECASE = Some gs.

(** The rows that the filter of template [k] selects for the captures
    [gs]. *)
Definition selected (k : template) (gs : list pystr) (data : list Row)
  : list Row :=
  match k, gs with
  | T1, [a; b] => rows_with2 product city a b data
  | T2, [a] => rows_with region a data
  | T3, [a; b] => rows_with2 product region a b data
  | T4, [a; b] => rows_with2 rep city a b data
  | _, _ => []
  end.

(** What template [k] is to answer when its filter selects [rows]:
    the 64-bit total of their sales; the number of distinct reps; the
    rounded mean of their sales, or 0 when there is none; the date of the
    first row with the largest sales, or the no-data text when there is
    none. *)
Definition answer_for (k : template) (rows : list Row) (a : Answer) : Prop :=
  match k with
  | T1 => exists n : Z, a = AInt n /\ wraps_to (total (map amount rows)) n
  | T2 => exists n : nat,
            a = AInt (Z.of_nat n) /\ distinct_count (map rep rows) n
  | T3 => match rows with
          | [] => a = AInt 0
          | _ :: _ => a = AFloat (round_to (mean_of (map amount rows)) 2)
          end
  | T4 => match rows with
          | [] => a = AStr (py "No sales data found for this rep in this city.")
          | _ :: _ =>
              exists (r : Row) (s : pystr),
                first_maximum rows r /\ formats_as_Ymd (date r) s /\ a = AStr s
          end
  end.

(* ================================================================== *)
(** ** The scenario of the specification *)

Definition widget_row (amount_ : Z) (y m d : nat) : Row :=
  {| product := py "Widget"; city := py "Boston"; region := py "East";
     rep := py "Jane Doe"; sales := Int64.of_Z amount_;
     date := {| year := y; month := m; day := d |} |}.

Definition scenario : list Row :=
  [widget_row 100 2024 1 5; widget_row 250 2024 2 10].

(** Questions worded after template 2, 3 and 4 whose last slot is filled
    with a text that ends like a question of template 1. *)
Definition long_region : pystr :=
  py "East What is the total sales of Widget in Boston".

Definition long_city : pystr :=
  py "Boston What is the total sales of Widget in Boston".

Definition question_2_holding_1 : pystr :=
  py "How many sales reps are there in " ++ long_region ++ py "?".


Definition question_4_holding_1 : pystr :=
  py "On what date did Jane Doe make the highest sale in " ++ long_city
  ++ py "?".

(* ================================================================== *)
(** ** Strings and frames: basic facts *)

Lemma str_eqb_eq (a b : pystr) : str_eqb a b = true <-> a = b.
Proof.
  revert b; induction a as [|x a IH]; intros [|y b]; simpl;
    try (split; (reflexivity || discriminate)).
  rewrite andb_true_iff, Ascii.eqb_eq, IH.
  split; [intros [-> ->]; reflexivity | intros E; inversion E; auto].
Qed.

Lemma str_eqb_is_eq (a b : pystr) : str_eqb a b = is_eq a b.
Proof.
  unfold is_eq; destruct (pystr_eq_dec a b) as [E|E].
  - apply str_eqb_eq; exact E.
  - destruct (str_eqb a b) eqn:B; [|reflexivity].
    apply str_eqb_eq in B; contradiction.
Qed.

Lemma is_eq_true (a b : pystr) : is_eq a b = true <-> a = b.
Proof. rewrite <- str_eqb_is_eq; apply str_eqb_eq. Qed.

(** Labelling the records and selecting by a mask keeps the records the
    mask accepts, in order. *)
Lemma filter_labelled (mask : Row -> bool) (data : list Row) (k : nat) :
  map snd (filter (fun lr => mask (snd lr)) (combine (seq k (List.length data)) data))
  = filter mask data.
Proof.
  revert k; induction data as [|r data IH]; intros k; simpl; [reflexivity|].
  destruct (mask r); simpl; rewrite IH; reflexivity.
Qed.

Lemma select_DataFrame_of (data : list Row) (mask : Row -> bool) :
  data <> [] ->
  Pd.select (Pd.DataFrame_of data) mask
  = ret {| Pd.has_columns := true;
           Pd.rows := filter (fun lr => mask (snd lr))
                        (combine (seq 0 (List.length data)) data) |}.
Proof.
  intros H; destruct data as [|r data]; [contradiction|reflexivity].
Qed.


Lemma column_values {A : Type} (f : Row -> A) (l : list (nat * Row)) :
  map snd (map (fun lr => (fst lr, f (snd lr))) l) = map f (map snd l).
Proof. rewrite !map_map; reflexivity. Qed.

Lemma select2_rows (f g : Row -> pystr) (a b : pystr) (data : list Row) :
  map snd (filter (fun lr => str_eqb (f (snd lr)) a && str_eqb (g (snd lr)) b)
             (combine (seq 0 (List.length data)) data))
  = rows_with2 f g a b data.
Proof.
  rewrite (filter_labelled (fun r => str_eqb (f r) a && str_eqb (g r) b)).
  unfold rows_with2; apply filter_ext; intros r.
  rewrite !str_eqb_is_eq; reflexivity.
Qed.

Lemma select1_rows (f : Row -> pystr) (a : pystr) (data : list Row) :
  map snd (filter (fun lr => str_eqb (f (snd lr)) a)
             (combine (seq 0 (List.length data)) data))
  = rows_with f a data.
Proof.
  rewrite (filter_labelled (fun r => str_eqb (f r) a)).
  unfold rows_with; apply filter_ext; intros r.
  rewrite str_eqb_is_eq; reflexivity.
Qed.

Lemma rows_with2_In (f g : Row -> pystr) (a b : pystr) (data : list Row) (r : Row) :
  In r (rows_with2 f g a b data) <-> In r data /\ f r = a /\ g r = b.
Proof.
  unfold rows_with2; rewrite filter_In, andb_true_iff, !is_eq_true; tauto.
Qed.

Lemma rows_with_In (f : Row -> pystr) (a : pystr) (data : list Row) (r : Row) :
  In r (rows_with f a data) <-> In r data /\ f r = a.
Proof.
  unfold rows_with; rewrite filter_In, is_eq_true; tauto.
Qed.

(* ================================================================== *)
(** ** Dispatch *)

Lemma dispatch1 (df : Pd.DataFrame) (question : pystr) (groups : list pystr) :
  Re.search pattern1 question Re.IGNORECASE = Some groups ->
  answer_question df question = total_sales df groups.
Proof. intros H; unfold answer_question; rewrite H; reflexivity. Qed.

Lemma dispatch2 (df : Pd.DataFrame) (question : pystr) (groups : list pystr) :
  no_match pattern1 question ->
  Re.search pattern2 question Re.IGNORECASE = Some groups ->
  answer_question df question = count_reps df groups.
Proof.
  unfold no_match; intros H1 H; unfold answer_question; rewrite H1, H; reflexivity.
Qed.

Lemma dispatch3 (df : Pd.DataFrame) (question : pystr) (groups : list pystr) :
  no_match pattern1 question ->
  no_match pattern2 question ->
  Re.search pattern3 question Re.IGNORECASE = Some groups ->
  answer_question df question = average_sales df groups.
Proof.
  unfold no_match; intros H1 H2 H; unfold answer_question;
    rewrite H1, H2, H; reflexivity.
Qed.

Lemma dispatch4 (df : Pd.DataFrame) (question : pystr) (groups : list pystr) :
  no_match pattern1 question ->
  no_match pattern2 question ->
  no_match pattern3 question ->
  Re.search pattern4 question Re.IGNORECASE = Some groups ->
  answer_question df question = highest_sale_date df groups.
Proof.
  unfold no_match; intros H1 H2 H3 H; unfold answer_question;
    rewrite H1, H2, H3, H; reflexivity.
Qed.

Lemma dispatch_none (df : Pd.DataFrame) (question : pystr) :
  no_match pattern1 question ->
  no_match pattern2 question ->
  no_match pattern3 question ->
  no_match pattern4 question ->
  answer_question df question = ret (AStr msg_sorry).
Proof.
  unfold no_match; intros H1 H2 H3 H4; unfold answer_question;
    rewrite H1, H2, H3, H4; reflexivity.
Qed.

Lemma handle_query_loaded (df : Pd.DataFrame) (q : pystr) (a : Answer) :
  Pd.empty df = false ->
  answer_question df q = ret a ->
  handle_query df q = ret (response a).
Proof.
  intros He Ha; unfold handle_query; rewrite He, Ha; reflexivity.
Qed.

(* ================================================================== *)
(** ** Sums in 64 bits *)

Lemma wrap_small (z : Z) : Int64.in_range z = true -> Int64.wrap z = z.
Proof.
  unfold Int64.in_range, Int64.wrap; intros H.
  apply andb_true_iff in H; destruct H as [H1 H2].
  apply Z.leb_le in H1; apply Z.ltb_lt in H2.
  rewrite Z.mod_small; unfold Int64.modulus, Int64.half_modulus in *; lia.
Qed.

Lemma wrap_add_l (a b : Z) :
  Int64.wrap (Int64.wrap a + b) = Int64.wrap (a + b).
Proof.
  unfold Int64.wrap.
  replace ((a + Int64.half_modulus) mod Int64.modulus - Int64.half_modulus
           + b + Int64.half_modulus)%Z
    with ((a + Int64.half_modulus) mod Int64.modulus + b)%Z by lia.
  rewrite Z.add_mod_idemp_l by (unfold Int64.modulus; lia).
  f_equal; f_equal; lia.
Qed.

Lemma fold_add_total (l : list Int64.t) (acc : Int64.t) :
  Int64.to_Z (fold_left Int64.add l acc)
  = Int64.wrap (Int64.to_Z acc + total (map Int64.to_Z l)).
Proof.
  revert acc; induction l as [|x l IH]; intros acc; cbn [fold_left map total fold_right].
  - rewrite Z.add_0_r, wrap_small; [reflexivity | apply Int64.range].
  - rewrite IH; cbn [Int64.add Int64.of_Z Int64.to_Z].
    rewrite wrap_add_l; f_equal.
    change (fold_right Z.add 0%Z (map Int64.to_Z l))
      with (total (map Int64.to_Z l)); lia.
Qed.

Lemma sum_total (l : list (nat * Row)) :
  Int64.to_Z (Pd.sum (map (fun lr => (fst lr, sales (snd lr))) l))
  = Int64.wrap (total (map amount (map snd l))).
Proof.
  unfold Pd.sum; rewrite column_values, fold_add_total.
  cbn [Int64.of_Z Int64.to_Z]; rewrite !map_map; reflexivity.
Qed.

Lemma wrap_wraps_to (s : Z) : wraps_to s (Int64.wrap s).
Proof.
  unfold wraps_to, Int64.wrap, Int64.modulus, Int64.half_modulus.
  pose proof (Z.mod_pos_bound (s + 2 ^ 63) (2 ^ 64) eq_refl) as B.
  split; [lia|].
  exists (- ((s + 2 ^ 63) / 2 ^ 64))%Z.
  pose proof (Z.div_mod (s + 2 ^ 63) (2 ^ 64) ltac:(lia)); lia.
Qed.


(** How the branches evaluate on a frame built from at least one record. *)
Ltac run_branch Hne :=
  unfold unpack2, item0; unfold bind, ret; cbv beta iota;
  rewrite (select_DataFrame_of _ _ Hne);
  unfold Pd.column, Pd.empty; unfold bind, ret;
  cbn [Pd.has_columns Pd.rows negb orb].

Lemma total_sales_value (data : list Row) (product_ city_ : pystr) :
  data <> [] ->
  exists n : Z,
    total_sales (Pd.DataFrame_of data) [product_; city_] = ret (AInt n) /\
    wraps_to (total (map amount (rows_with2 product city product_ city_ data))) n.
Proof.
  intros Hne; unfold total_sales; run_branch Hne.
  eexists; split; [reflexivity|].
  unfold py_int; rewrite sum_total, select2_rows; apply wrap_wraps_to.
Qed.




(** The scenario of the specification: 100 and 250 are answered 350. *)
Example scenario_total :
  answer_question (Pd.DataFrame_of scenario)
    (py "What is the total sales of Widget in Boston?") = ret (AInt 350).
Proof. vm_compute; reflexivity. Qed.

(* ================================================================== *)
(** ** Distinct values *)

Lemma existsb_str_eqb (x : pystr) (l : list pystr) :
  existsb (str_eqb x) l = true <-> In x l.
Proof.
  rewrite existsb_exists; split.
  - intros (y & Hy & E); apply str_eqb_eq in E; subst; assumption.
  - intros H; exists x; split; [assumption | apply str_eqb_eq; reflexivity].
Qed.

Lemma unique_In (x : pystr) (l : list pystr) : In x (Pd.unique l) <-> In x l.
Proof.
  induction l as [|y l IH]; simpl; [tauto|].
  destruct (existsb (str_eqb y) l) eqn:E.
  - apply existsb_str_eqb in E; rewrite IH; split; [tauto|].
    intros [->|H]; assumption.
  - simpl; rewrite IH; tauto.
Qed.

Lemma unique_NoDup (l : list pystr) : NoDup (Pd.unique l).
Proof.
  induction l as [|y l IH]; simpl; [constructor|].
  destruct (existsb (str_eqb y) l) eqn:E; [assumption|].
  constructor; [|assumption].
  rewrite unique_In, <- existsb_str_eqb, E; discriminate.
Qed.

Lemma nunique_distinct_count (l : list (nat * Row)) :
  distinct_count (map rep (map snd l))
    (Pd.nunique (map (fun lr => (fst lr, rep (snd lr))) l)).
Proof.
  unfold Pd.nunique; rewrite column_values.
  exists (Pd.unique (map rep (map snd l))); split; [apply unique_NoDup|].
  split; [intros x; apply unique_In | reflexivity].
Qed.

Lemma count_reps_value (data : list Row) (region_ : pystr) :
  data <> [] ->
  exists n : nat,
    count_reps (Pd.DataFrame_of data) [region_] = ret (AInt (Z.of_nat n)) /\
    distinct_count (map rep (rows_with region region_ data)) n.
Proof.
  intros Hne; unfold count_reps; run_branch Hne.
  eexists; split; [reflexivity|].
  rewrite <- select1_rows; apply nunique_distinct_count.
Qed.

Lemma distinct_count_none (l : list pystr) (n : nat) :
  distinct_count l n -> l = [] -> n = 0.
Proof.
  intros (vs & _ & Hin & <-) ->.
  destruct vs as [|v vs]; [reflexivity|].
  destruct (proj1 (Hin v) (or_introl eq_refl)).
Qed.

(** C4 — Template 2: a question in which [re.search] finds pattern 2, with
    the region captured, and does not find pattern 1, is answered over a
    loaded store by the number of distinct [rep] values among the rows
    whose region is exactly the capture, an integer; it is 0 when no row
    has that region. *)
Theorem C4_count_reps :
  forall (data : list Row) (question region_ : pystr),
    data <> [] ->
    no_match pattern1 question ->
    Re.search pattern2 question Re.IGNORECASE = Some [region_] ->
    exists n : nat,
      answer_question (Pd.DataFrame_of data) question = ret (AInt (Z.of_nat n)) /\
      distinct_count (map rep (rows_with region region_ data)) n /\
      (rows_with region region_ data = [] -> n = 0).
Proof.
  intros data question region_ Hne H1 H2.
  destruct (count_reps_value data region_ Hne) as (n & Hn & Hd).
  exists n; rewrite (dispatch2 _ _ _ H1 H2).
  split; [assumption|]; split; [assumption|].
  intros E; apply (distinct_count_none _ _ Hd); rewrite E; reflexivity.
Qed.

Lemma C4_count_reps_witness :
  exists n : nat,
    answer_question (Pd.DataFrame_of scenario)
      (py "How many sales reps are there in East?") = ret (AInt (Z.of_nat n)) /\
    distinct_count (map rep (rows_with region (py "East") scenario)) n /\
    (rows_with region (py "East") scenario = [] -> n = 0).
Proof.
  apply (C4_count_reps scenario (py "How many sales reps are there in East?")
           (py "East")).
  - discriminate.
  - vm_compute; reflexivity.
  - vm_compute; reflexivity.
Defined.

(** C4, as stated, fails. The question is worded after template 2 and
    pattern 2 matches it from its first to its last character, capturing
    a region that no row has, so that the count is 0; yet the answer is
    350, the total of template 1, whose pattern is found in the question
    as well and is tried first. *)
Lemma C4_counterexample :
  Re.match_here Re.IGNORECASE pattern2 question_2_holding_1
  = Some [long_region] /\
  Re.search pattern2 question_2_holding_1 Re.IGNORECASE = Some [long_region] /\
  distinct_count (map rep (rows_with region long_region scenario)) 0 /\
  answer_question (Pd.DataFrame_of scenario) question_2_holding_1
  = ret (AInt 350).
Proof.
  split; [vm_compute; reflexivity|]; split; [vm_compute; reflexivity|].
  split; [|vm_compute; reflexivity].
  exists []; split; [constructor|]; split; [|reflexivity].
  intros x; vm_compute; tauto.
Qed.

(* ================================================================== *)
(** ** Means *)

Lemma mean_of_column (l : list (nat * Row)) :
  l <> [] ->
  Pd.mean (map (fun lr => (fst lr, sales (snd lr))) l)
  = Some (mean_of (map amount (map snd l))).
Proof.
  intros Hne; destruct l as [|lr l]; [contradiction|].
  unfold Pd.mean; cbn [map]; rewrite !map_map; reflexivity.
Qed.

Lemma average_sales_value (data : list Row) (product_ region_ : pystr) :
  data <> [] ->
  (rows_with2 product region product_ region_ data = [] ->
   average_sales (Pd.DataFrame_of data) [product_; region_] = ret (AInt 0)) /\
  (rows_with2 product region product_ region_ data <> [] ->
   average_sales (Pd.DataFrame_of data) [product_; region_]
   = ret (AFloat
            (round_to
               (mean_of
                  (map amount (rows_with2 product region product_ region_ data)))
               2))).
Proof.
  intros Hne; unfold average_sales; run_branch Hne.
  rewrite <- select2_rows.
  set (l := filter _ _).
  split; intros E.
  - apply map_eq_nil in E; rewrite E; reflexivity.
  - assert (Hl : l <> []) by (intros ->; apply E; reflexivity).
    rewrite (mean_of_column l Hl); reflexivity.
Qed.




(** The scenario of the specification: the rounded mean of 100 and 250. *)
Example scenario_mean :
  answer_question (Pd.DataFrame_of scenario)
    (py "What is the average sales for Widget in East?")
  = ret (AFloat (round_to (mean_of [100; 250]%Z) 2)).
Proof. vm_compute; reflexivity. Qed.

(* ================================================================== *)
(** ** The row of the largest sale *)

Section Argmax.
Variable A : Type.
Variable v : A -> Z.

Lemma fold_keep_larger (t : list A) (best : A) :
  exists i : nat,
    nth_error (best :: t) i = Some (fold_left (keep_larger v) t best) /\
    (forall x, In x (best :: t) -> (v x <= v (fold_left (keep_larger v) t best))%Z) /\
    (forall j x, j < i -> nth_error (best :: t) j = Some x ->
                 (v x < v (fold_left (keep_larger v) t best))%Z).
Proof.
  revert best; induction t as [|c t IH]; intros best.
  - exists 0; split; [reflexivity|]; split.
    + intros x [<-|[]]; apply Z.le_refl.
    + intros j x Hj; lia.
  - cbn [fold_left]; unfold keep_larger at 2 4 6.
    destruct (v best <? v c)%Z eqn:C.
    + apply Z.ltb_lt in C.
      destruct (IH c) as (i & Hi & Hall & Hbefore).
      assert (Hc : (v c <= v (fold_left (keep_larger v) t c))%Z)
        by (apply Hall; left; reflexivity).
      exists (S i); split; [exact Hi|]; split.
      * intros x [<-|Hx]; [lia | apply Hall; exact Hx].
      * intros [|j] x Hj Hx.
        -- injection Hx as <-; lia.
        -- apply (Hbefore j); [lia | exact Hx].
    + apply Z.ltb_ge in C.
      destruct (IH best) as (i & Hi & Hall & Hbefore).
      destruct i as [|i].
      * exists 0; split; [exact Hi|]; split.
        -- intros x [<-|[<-|Hx]].
           ++ apply Hall; left; reflexivity.
           ++ injection Hi as <-; exact C.
           ++ apply Hall; right; exact Hx.
        -- intros j x Hj; lia.
      * exists (S (S i)); split; [exact Hi|]; split.
        -- intros x [<-|[<-|Hx]].
           ++ apply Hall; left; reflexivity.
           ++ pose proof (Hall best (or_introl eq_refl)); lia.
           ++ apply Hall; right; exact Hx.
        -- intros [|[|j]] x Hj Hx.
           ++ apply (Hbefore 0); [lia | exact Hx].
           ++ injection Hx as <-.
              pose proof (Hbefore 0 best ltac:(lia) eq_refl); lia.
           ++ apply (Hbefore (S j)); [lia | exact Hx].
Qed.
End Argmax.

Lemma code_digit (n : nat) : code (digit n) = 48 + n mod 10.
Proof.
  unfold code, digit; apply nat_ascii_embedding.
  pose proof (Nat.mod_upper_bound n 10); lia.
Qed.

Lemma is_digit_digit (n : nat) : is_digit (digit n) = true.
Proof.
  unfold is_digit, between; rewrite code_digit.
  pose proof (Nat.mod_upper_bound n 10 ltac:(lia)).
  apply andb_true_iff; split; apply Nat.leb_le; lia.
Qed.

Lemma digits2 (n : nat) :
  n < 100 -> decimal [digit (n / 10); digit n] = n.
Proof.
  intros H; unfold decimal; cbn [fold_left]; rewrite !code_digit.
  assert (H1 : n / 10 < 10) by (apply Nat.Div0.div_lt_upper_bound; lia).
  rewrite (Nat.mod_small (n / 10) 10 H1).
  pose proof (Nat.div_mod_eq n 10); lia.
Qed.

Lemma decimal_snoc (a : pystr) (d : ascii) :
  decimal (a ++ [d]) = 10 * decimal a + (code d - 48).
Proof. unfold decimal; rewrite fold_left_app; reflexivity. Qed.

Lemma decimal_digits_value (fuel n : nat) :
  n < fuel -> decimal (decimal_digits fuel n) = n.
Proof.
  revert n; induction fuel as [|fuel IH]; intros n H; [lia|].
  cbn [decimal_digits]; destruct (n <? 10) eqn:E.
  - apply Nat.ltb_lt in E.
    unfold decimal; cbn [fold_left]; rewrite code_digit, Nat.mod_small; lia.
  - apply Nat.ltb_ge in E.
    assert (Hd : n / 10 < n) by (apply Nat.div_lt; lia).
    rewrite decimal_snoc, IH, code_digit by lia.
    pose proof (Nat.div_mod_eq n 10); lia.
Qed.

Lemma decimal_digits_are_digits (fuel n : nat) :
  forallb is_digit (decimal_digits fuel n) = true.
Proof.
  revert n; induction fuel as [|fuel IH]; intros n; [reflexivity|].
  cbn [decimal_digits]; destruct (n <? 10).
  - cbn [forallb]; rewrite is_digit_digit; reflexivity.
  - rewrite forallb_app, IH; cbn [forallb]; rewrite is_digit_digit; reflexivity.
Qed.

Lemma decimal_digits_four (fuel n : nat) :
  1000 <= n -> n < 100 * 100 -> 4 <= fuel ->
  List.length (decimal_digits fuel n) = 4.
Proof.
  intros Hlo Hhi Hf.
  destruct fuel as [|[|[|[|fuel]]]]; try lia.
  assert (H1 : 100 <= n / 10) by (apply Nat.div_le_lower_bound; lia).
  assert (H2 : 10 <= n / 10 / 10) by (apply Nat.div_le_lower_bound; lia).
  assert (H3 : n / 10 / 10 / 10 < 10).
  { repeat (apply Nat.Div0.div_lt_upper_bound); lia. }
  cbn [decimal_digits].
  replace (n <? 10) with false by (symmetry; apply Nat.ltb_ge; lia).
  replace (n / 10 <? 10) with false by (symmetry; apply Nat.ltb_ge; lia).
  replace (n / 10 / 10 <? 10) with false by (symmetry; apply Nat.ltb_ge; lia).
  replace (n / 10 / 10 / 10 <? 10) with true by (symmetry; apply Nat.ltb_lt; lia).
  reflexivity.
Qed.

Lemma strftime_Ymd_format (t : Timestamp) : formats_as_Ymd t (strftime_Ymd t).
Proof.
  exists (str_of_nat (year t)),
         [digit (month t / 10); digit (month t)],
         [digit (day t / 10); digit (day t)].
  split; [reflexivity|]; split; [|split; [|split]].
  - rewrite forallb_app; unfold str_of_nat.
    rewrite decimal_digits_are_digits.
    cbn [app forallb]; rewrite !is_digit_digit; reflexivity.
  - unfold str_of_nat; apply decimal_digits_value; lia.
  - intros Hlo Hhi; unfold str_of_nat; apply decimal_digits_four; lia.
  - split; [reflexivity|]; split; [reflexivity|]; split; apply digits2.
Qed.

Lemma labels_of_records (data : list Row) (k : nat) :
  map fst (combine (seq k (List.length data)) data) = seq k (List.length data).
Proof.
  revert k; induction data as [|r data IH]; intros k; simpl; [reflexivity|].
  rewrite IH; reflexivity.
Qed.

Lemma labels_after_filter (P : nat * Row -> bool) (l : list (nat * Row)) :
  NoDup (map fst l) -> NoDup (map fst (filter P l)).
Proof.
  induction l as [|a l IH]; simpl; intros H; [constructor|].
  inversion H as [|x xs Hx Hxs]; subst.
  destruct (P a); simpl; [|apply IH; assumption].
  constructor; [|apply IH; assumption].
  intros Hin; apply Hx.
  apply in_map_iff in Hin; destruct Hin as (b & Hb & Hin).
  apply filter_In in Hin; destruct Hin as [Hin _].
  apply in_map_iff; exists b; split; assumption.
Qed.

Lemma find_by_label (l : list (nat * Row)) (lr : nat * Row) :
  NoDup (map fst l) -> In lr l ->
  find (fun x => fst x =? fst lr) l = Some lr.
Proof.
  induction l as [|a l IH]; simpl; intros H Hin; [contradiction|].
  inversion H as [|x xs Hx Hxs]; subst.
  destruct (fst a =? fst lr) eqn:E.
  - apply Nat.eqb_eq in E.
    destruct Hin as [->|Hin]; [reflexivity|].
    exfalso; apply Hx; rewrite E; apply in_map; assumption.
  - destruct Hin as [->|Hin]; [rewrite Nat.eqb_refl in E; discriminate|].
    apply IH; assumption.
Qed.

Lemma keep_larger_column (b c : nat * Row) :
  keep_larger (fun lv : nat * Int64.t => Int64.to_Z (snd lv))
    (fst b, sales (snd b)) (fst c, sales (snd c))
  = (fst (keep_larger (fun lr => amount (snd lr)) b c),
     sales (snd (keep_larger (fun lr => amount (snd lr)) b c))).
Proof.
  unfold keep_larger, amount; cbn [snd].
  destruct (Int64.to_Z (sales (snd b)) <? Int64.to_Z (sales (snd c)))%Z;
    reflexivity.
Qed.

Lemma fold_keep_larger_column (t : list (nat * Row)) (b : nat * Row) :
  fold_left (keep_larger (fun lv : nat * Int64.t => Int64.to_Z (snd lv)))
    (map (fun lr => (fst lr, sales (snd lr))) t) (fst b, sales (snd b))
  = (fst (fold_left (keep_larger (fun lr => amount (snd lr))) t b),
     sales (snd (fold_left (keep_larger (fun lr => amount (snd lr))) t b))).
Proof.
  revert b; induction t as [|c t IH]; intros b; [reflexivity|].
  cbn [map fold_left]; rewrite keep_larger_column; apply IH.
Qed.

(** [subset.loc[subset['sales'].idxmax()]] on a non-empty subset with
    distinct labels is the first row with the largest sales. *)
Lemma idxmax_then_loc (l : list (nat * Row)) :
  l <> [] -> NoDup (map fst l) ->
  exists r : Row,
    (label <- Pd.idxmax (map (fun lr => (fst lr, sales (snd lr))) l) ;;
     Pd.loc {| Pd.has_columns := true; Pd.rows := l |} label) = ret r /\
    first_maximum (map snd l) r.
Proof.
  intros Hne Hnd; destruct l as [|b t]; [contradiction|].
  destruct (fold_keep_larger (nat * Row) (fun lr => amount (snd lr)) t b)
    as (i & Hi & Hall & Hbefore).
  set (res := fold_left (keep_larger (fun lr => amount (snd lr))) t b) in *.
  exists (snd res); split.
  - unfold Pd.idxmax; cbn [map].
    change (fun best cur : nat * Int64.t =>
              if (Int64.to_Z (snd best) <? Int64.to_Z (snd cur))%Z
              then cur else best)
      with (@keep_larger (nat * Int64.t) (fun lv => Int64.to_Z (snd lv))).
    rewrite fold_keep_larger_column; fold res.
    unfold bind, ret, Pd.loc; cbn [fst Pd.rows].
    rewrite (find_by_label (b :: t) res Hnd); [reflexivity|].
    eapply nth_error_In; exact Hi.
  - exists i; split; [|split].
    + rewrite nth_error_map, Hi; reflexivity.
    + intros r' Hr'; apply in_map_iff in Hr'.
      destruct Hr' as (lr' & <- & Hin); apply Hall; assumption.
    + intros j r' Hj Hr'; rewrite nth_error_map in Hr'.
      destruct (nth_error (b :: t) j) as [lr'|] eqn:E; [|discriminate].
      injection Hr' as <-; apply (Hbefore j); assumption.
Qed.

Lemma highest_sale_date_value (data : list Row) (rep_ city_ : pystr) :
  data <> [] ->
  (rows_with2 rep city rep_ city_ data = [] ->
   highest_sale_date (Pd.DataFrame_of data) [rep_; city_]
   = ret (AStr msg_no_sales)) /\
  (rows_with2 rep city rep_ city_ data <> [] ->
   exists r : Row,
     first_maximum (rows_with2 rep city rep_ city_ data) r /\
     highest_sale_date (Pd.DataFrame_of data) [rep_; city_]
     = ret (AStr (strftime_Ymd (date r)))).
Proof.
  intros Hne; unfold highest_sale_date; run_branch Hne.
  rewrite <- select2_rows.
  set (l := filter _ _).
  assert (Hnd : NoDup (map fst l)).
  { apply labels_after_filter; rewrite labels_of_records; apply seq_NoDup. }
  split; intros E.
  - apply map_eq_nil in E; rewrite E; reflexivity.
  - assert (Hl : l <> []) by (intros ->; apply E; reflexivity).
    destruct (idxmax_then_loc l Hl Hnd) as (r & Hr & Hmax).
    exists r; split; [assumption|].
    destruct l as [|a l']; [contradiction|].
    cbv beta iota.
    unfold bind, ret in Hr |- *.
    destruct (Pd.idxmax _) as [e|label]; [discriminate|].
    rewrite Hr; reflexivity.
Qed.




(** The earlier of two rows with equal sales is the one reported. *)
Example tie_goes_to_first_row :
  answer_question
    (Pd.DataFrame_of [widget_row 250 2024 1 5; widget_row 250 2024 2 10])
    (py "On what date did Jane Doe make the highest sale in Boston?")
  = ret (AStr (py "2024-01-05")).
Proof. vm_compute; reflexivity. Qed.

(* ================================================================== *)
(** ** The matcher *)

Lemma span_firstn (f : ascii -> bool) (s : pystr) (m : nat) :
  m <= Re.span f s -> forallb f (firstn m s) = true.
Proof.
  revert m; induction s as [|c s IH]; intros [|m] H; simpl in *;
    try reflexivity; try lia.
  destruct (f c) eqn:E; [|lia].
  simpl; apply IH; lia.
Qed.

Lemma span_firstn_nonempty (f : ascii -> bool) (s : pystr) (m : nat) :
  1 <= m -> m <= Re.span f s -> firstn m s <> [].
Proof.
  destruct s as [|c s]; simpl; [lia|].
  destruct m as [|m]; [lia|]; simpl; discriminate.
Qed.

Lemma span_app_ge (f : ascii -> bool) (a rest : pystr) :
  forallb f a = true -> List.length a <= Re.span f (a ++ rest).
Proof.
  induction a as [|c a IH]; simpl; intros H; [lia|].
  apply andb_true_iff in H; destruct H as [Hc Ha].
  rewrite Hc; specialize (IH Ha); lia.
Qed.

Lemma span_app_stop (f : ascii -> bool) (a : pystr) (c : ascii) (rest : pystr) :
  forallb f a = true -> f c = false ->
  Re.span f (a ++ c :: rest) = List.length a.
Proof.
  induction a as [|x a IH]; simpl; intros H Hc; [rewrite Hc; reflexivity|].
  apply andb_true_iff in H; destruct H as [Hx Ha].
  rewrite Hx, IH; auto.
Qed.

Lemma backtrack_inv (k : pystr -> option (list pystr)) (s : pystr) (n : nat)
      (r : list pystr) :
  Re.backtrack k s n = Some r ->
  exists (m : nat) (gs : list pystr),
    1 <= m /\ m <= n /\ k (skipn m s) = Some gs /\ r = firstn m s :: gs.
Proof.
  induction n as [|n IH]; cbn [Re.backtrack]; [discriminate|].
  destruct (k (skipn (S n) s)) as [gs|] eqn:E.
  - intros H; injection H as <-.
    exists (S n), gs; repeat split; try lia; assumption.
  - intros H; destruct (IH H) as (m & gs & H1 & H2 & H3 & H4).
    exists m, gs; repeat split; try lia; assumption.
Qed.

Lemma backtrack_first (k : pystr -> option (list pystr)) (s : pystr) (n : nat)
      (gs : list pystr) :
  1 <= n -> k (skipn n s) = Some gs ->
  Re.backtrack k s n = Some (firstn n s :: gs).
Proof.
  destruct n as [|n]; [lia|]; intros _ H.
  cbn [Re.backtrack]; rewrite H; reflexivity.
Qed.

Lemma backtrack_some (k : pystr -> option (list pystr)) (s : pystr) (n m : nat)
      (gs : list pystr) :
  1 <= m -> m <= n -> k (skipn m s) = Some gs ->
  exists r, Re.backtrack k s n = Some r.
Proof.
  intros H1 H2 Hk; induction n as [|n IH]; [lia|].
  cbn [Re.backtrack].
  destruct (k (skipn (S n) s)) as [gs'|] eqn:E; [eexists; reflexivity|].
  apply IH.
  destruct (Nat.eq_dec m (S n)) as [->|]; [congruence | lia].
Qed.

Lemma match_here_group (flags : bool) (cs : Re.cset) (p : Re.pattern) (s : pystr) :
  Re.match_here flags (Re.Group cs :: p) s
  = Re.backtrack (Re.match_here flags p) s (Re.span (Re.in_cset flags cs) s).
Proof. reflexivity. Qed.

(** Every captured group is a non-empty run of characters of its set. *)
Lemma match_here_groups (flags : bool) (p : Re.pattern) (s : pystr)
      (gs : list pystr) :
  Re.match_here flags p s = Some gs ->
  Forall2 (captured_by flags) (group_sets p) gs.
Proof.
  revert s gs; induction p as [|[l|cs] p IH]; intros s gs; cbn [Re.match_here group_sets].
  - intros H; injection H as <-; constructor.
  - destruct (Re.lit_match flags l s) as [rest|]; [apply IH | discriminate].
  - intros H; apply backtrack_inv in H.
    destruct H as (m & gs' & H1 & H2 & Hk & ->).
    constructor; [|eapply IH; eassumption].
    split; [eapply span_firstn_nonempty | apply span_firstn]; eassumption.
Qed.

Lemma search_inv (p : Re.pattern) (s : pystr) (flags : bool) (gs : list pystr) :
  Re.search p s flags = Some gs ->
  exists pre s', s = pre ++ s' /\ Re.match_here flags p s' = Some gs.
Proof.
  induction s as [|c s IH]; cbn [Re.search].
  - intros H; exists [], []; split; [reflexivity | assumption].
  - destruct (Re.match_here flags p (c :: s)) as [gs'|] eqn:E.
    + intros H; injection H as <-.
      exists [], (c :: s); split; [reflexivity | assumption].
    + intros H; destruct (IH H) as (pre & s' & -> & Hm).
      exists (c :: pre), s'; split; [reflexivity | assumption].
Qed.

Lemma search_here (p : Re.pattern) (s : pystr) (flags : bool) (gs : list pystr) :
  Re.match_here flags p s = Some gs -> Re.search p s flags = Some gs.
Proof.
  destruct s as [|c s]; cbn [Re.search]; intros H; [assumption|].
  rewrite H; reflexivity.
Qed.

Lemma search_groups (p : Re.pattern) (s : pystr) (flags : bool) (gs : list pystr) :
  Re.search p s flags = Some gs ->
  Forall2 (captured_by flags) (group_sets p) gs.
Proof.
  intros H; destruct (search_inv _ _ _ _ H) as (pre & s' & _ & Hm).
  eapply match_here_groups; eassumption.
Qed.

Lemma search_two_groups (p : Re.pattern) (s : pystr) (flags : bool)
      (gs : list pystr) (cs1 cs2 : Re.cset) :
  group_sets p = [cs1; cs2] ->
  Re.search p s flags = Some gs ->
  exists a b, gs = [a; b] /\ captured_by flags cs1 a /\ captured_by flags cs2 b.
Proof.
  intros Hp H; apply search_groups in H; rewrite Hp in H.
  inversion H as [|? a ? gs1 Ha H1]; subst.
  inversion H1 as [|? b ? gs2 Hb H2]; subst.
  inversion H2; subst.
  exists a, b; repeat split; (apply Ha || apply Hb).
Qed.

Lemma search_one_group (p : Re.pattern) (s : pystr) (flags : bool)
      (gs : list pystr) (cs1 : Re.cset) :
  group_sets p = [cs1] ->
  Re.search p s flags = Some gs ->
  exists a, gs = [a] /\ captured_by flags cs1 a.
Proof.
  intros Hp H; apply search_groups in H; rewrite Hp in H.
  inversion H as [|? a ? gs1 Ha H1]; subst.
  inversion H1; subst.
  exists a; split; [reflexivity | assumption].
Qed.

(* ================================================================== *)
(** ** The branches never raise on a loaded frame *)

Lemma loaded_has_columns (df : Pd.DataFrame) :
  Pd.empty df = false -> Pd.has_columns df = true.
Proof.
  unfold Pd.empty; destruct (Pd.has_columns df); [reflexivity | discriminate].
Qed.

Lemma select_loaded (df : Pd.DataFrame) (mask : Row -> bool) :
  Pd.has_columns df = true ->
  Pd.select df mask
  = ret {| Pd.has_columns := true;
           Pd.rows := filter (fun lr => mask (snd lr)) (Pd.rows df) |}.
Proof. intros H; unfold Pd.select; rewrite H; reflexivity. Qed.

Ltac run_loaded H :=
  unfold unpack2, item0; unfold bind, ret; cbv beta iota;
  rewrite (select_loaded _ _ H);
  unfold Pd.column, Pd.empty; unfold bind, ret;
  cbn [Pd.has_columns Pd.rows negb orb].

Lemma idxmax_column (b : nat * Row) (t : list (nat * Row)) :
  Pd.idxmax (map (fun lr => (fst lr, sales (snd lr))) (b :: t))
  = ret (fst (fold_left (keep_larger (fun lr => amount (snd lr))) t b)).
Proof.
  unfold Pd.idxmax; cbn [map].
  change (fun best cur : nat * Int64.t =>
            if (Int64.to_Z (snd best) <? Int64.to_Z (snd cur))%Z
            then cur else best)
    with (@keep_larger (nat * Int64.t) (fun lv => Int64.to_Z (snd lv))).
  rewrite fold_keep_larger_column; reflexivity.
Qed.

Lemma find_label_some (l : list (nat * Row)) (lr : nat * Row) :
  In lr l -> exists x, find (fun x => fst x =? fst lr) l = Some x.
Proof.
  intros Hin; destruct (find (fun x => fst x =? fst lr) l) as [x|] eqn:E.
  - exists x; reflexivity.
  - pose proof (find_none _ _ E lr Hin) as H; cbv beta in H.
    rewrite Nat.eqb_refl in H; discriminate.
Qed.

Lemma total_sales_returns (df : Pd.DataFrame) (a b : pystr) :
  Pd.has_columns df = true -> exists x, total_sales df [a; b] = ret x.
Proof.
  intros H; unfold total_sales; run_loaded H; eexists; reflexivity.
Qed.

Lemma count_reps_returns (df : Pd.DataFrame) (a : pystr) :
  Pd.has_columns df = true -> exists x, count_reps df [a] = ret x.
Proof.
  intros H; unfold count_reps; run_loaded H; eexists; reflexivity.
Qed.

Lemma average_sales_returns (df : Pd.DataFrame) (a b : pystr) :
  Pd.has_columns df = true -> exists x, average_sales df [a; b] = ret x.
Proof.
  intros H; unfold average_sales; run_loaded H.
  destruct (Pd.mean _); eexists; reflexivity.
Qed.

Lemma highest_sale_date_returns (df : Pd.DataFrame) (a b : pystr) :
  Pd.has_columns df = true -> exists x, highest_sale_date df [a; b] = ret x.
Proof.
  intros H; unfold highest_sale_date; run_loaded H.
  set (l := filter _ _).
  destruct l as [|lr t] eqn:E; cbv beta iota; [eexists; reflexivity|].
  rewrite idxmax_column; unfold ret; cbv beta iota.
  set (res := fold_left _ t lr).
  assert (Hin : In res (lr :: t)).
  { destruct (fold_keep_larger _ (fun x => amount (snd x)) t lr) as (i & Hi & _).
    eapply nth_error_In; exact Hi. }
  destruct (find_label_some _ _ Hin) as (x & Hx).
  unfold Pd.loc; cbn [Pd.rows]; rewrite Hx.
  eexists; reflexivity.
Qed.

(** On the frame made from no record, [answer_question] itself raises as
    soon as a pattern matches: the guard of [handle_query] matters. *)
Example answer_question_unloaded :
  answer_question (Pd.DataFrame_of [])
    (py "What is the total sales of Widget in Boston?") = raise KeyError.
Proof. vm_compute; reflexivity. Qed.

(** C5 — On an empty store the endpoint returns, for every question, a
    response whose answer is the text "Error: Dataset not loaded.": the
    question is not looked at, and the outcome is a returned value, not an
    exception. *)
Theorem C5_empty_store :
  forall (df : Pd.DataFrame) (q : pystr),
    Pd.empty df = true ->
    handle_query df q = ret (response (AStr (py "Error: Dataset not loaded."))).
Proof.
  intros df q He; unfold handle_query; rewrite He; reflexivity.
Qed.

(** The store built when the data file is missing is empty. *)
Example missing_file_gives_empty_store :
  load_dataset None = ret (Pd.DataFrame_of []) /\
  Pd.empty (Pd.DataFrame_of []) = true.
Proof. split; reflexivity. Qed.

Lemma C5_empty_store_witness :
  handle_query (Pd.DataFrame_of [])
    (py "What is the total sales of Widget in Boston?")
  = ret (response (AStr (py "Error: Dataset not loaded."))).
Proof.
  apply (C5_empty_store (Pd.DataFrame_of [])
           (py "What is the total sales of Widget in Boston?")).
  reflexivity.
Defined.

(** C8 — A question in which none of the four patterns is found is
    answered, over a store that is not empty, by the text
    "Sorry, I can't answer that question.", returned as the answer of an
    ordinary response and not raised. *)
Theorem C8_not_understood :
  forall (df : Pd.DataFrame) (q : pystr),
    Pd.empty df = false ->
    no_match pattern1 q -> no_match pattern2 q ->
    no_match pattern3 q -> no_match pattern4 q ->
    answer_question df q
    = ret (AStr (py "Sorry, I can't answer that question.")) /\
    handle_query df q
    = ret (response (AStr (py "Sorry, I can't answer that question."))).
Proof.
  intros df q He H1 H2 H3 H4.
  pose proof (dispatch_none df q H1 H2 H3 H4) as Ha.
  split; [exact Ha | apply handle_query_loaded; assumption].
Qed.

Lemma C8_not_understood_witness :
  answer_question (Pd.DataFrame_of scenario) (py "What is the weather today?")
  = ret (AStr (py "Sorry, I can't answer that question.")) /\
  handle_query (Pd.DataFrame_of scenario) (py "What is the weather today?")
  = ret (response (AStr (py "Sorry, I can't answer that question."))).
Proof.
  apply (C8_not_understood (Pd.DataFrame_of scenario)
           (py "What is the weather today?"));
    vm_compute; reflexivity.
Defined.

(** The first template whose pattern is found answers. *)
Lemma dispatch_answers (k : template) (df : Pd.DataFrame) (q : pystr)
      (gs : list pystr) :
  answers k gs q -> answer_question df q = aggregation k df gs.
Proof.
  intros [Hearlier Hk].
  destruct k; cbn [pattern_of aggregation earlier] in *.
  - apply dispatch1; assumption.
  - apply dispatch2; [apply (Hearlier T1); simpl; tauto | assumption].
  - apply dispatch3;
      [apply (Hearlier T1) | apply (Hearlier T2) | assumption]; simpl; tauto.
  - apply dispatch4;
      [apply (Hearlier T1) | apply (Hearlier T2) | apply (Hearlier T3)
      | assumption]; simpl; tauto.
Qed.

(** On a loaded store each branch returns what its template is to
    answer on the rows its filter selects. *)
Lemma aggregation_meets_spec (k : template) (data : list Row) (q : pystr)
      (gs : list pystr) :
  data <> [] ->
  Re.search (pattern_of k) q Re.IGNORECASE = Some gs ->
  exists a : Answer,
    aggregation k (Pd.DataFrame_of data) gs = ret a /\
    answer_for k (selected k gs data) a.
Proof.
  intros Hne Hk; destruct k; cbn [pattern_of aggregation] in *.
  - destruct (search_two_groups pattern1 _ _ _ set_w set_w eq_refl Hk)
      as (x & y & -> & _); cbn [selected answer_for].
    destruct (total_sales_value data x y Hne) as (n & Hn & Ht).
    exists (AInt n); split; [assumption|]; exists n; split; trivial.
  - destruct (search_one_group pattern2 _ _ _ set_ws eq_refl Hk) as (x & -> & _).
    cbn [selected answer_for].
    destruct (count_reps_value data x Hne) as (n & Hn & Hd).
    exists (AInt (Z.of_nat n)); split; [assumption|]; exists n; split; trivial.
  - destruct (search_two_groups pattern3 _ _ _ set_w set_ws eq_refl Hk)
      as (x & y & -> & _); cbn [selected answer_for].
    destruct (average_sales_value data x y Hne) as [Hnone Hsome].
    destruct (rows_with2 product region x y data) as [|r rows] eqn:E.
    + exists (AInt 0); split; [apply Hnone|]; reflexivity.
    + eexists; split; [apply Hsome; discriminate | reflexivity].
  - destruct (search_two_groups pattern4 _ _ _ set_rep set_ws eq_refl Hk)
      as (x & y & -> & _); cbn [selected answer_for].
    destruct (highest_sale_date_value data x y Hne) as [Hnone Hsome].
    destruct (rows_with2 rep city x y data) as [|r rows] eqn:E.
    + eexists; split; [apply Hnone; reflexivity | reflexivity].
    + destruct Hsome as (r' & Hmax & Hr'); [discriminate|].
      eexists; split; [exact Hr'|].
      exists r', (strftime_Ymd (date r')); split; [assumption|].
      split; [apply strftime_Ymd_format | reflexivity].
Qed.

(** C7 — The templates are tried in the order 1, 2, 3, 4 and the first
    whose pattern is found decides: over a loaded store, whenever the
    pattern of template [k] is found and none of the earlier ones is, the
    answer is what template [k] is to answer on the rows that its filter
    selects for the captured texts, whatever the later patterns do. *)
Theorem C7_first_match_wins :
  forall (k : template) (data : list Row) (q : pystr) (groups : list pystr),
    data <> [] ->
    (forall j, In j (earlier k) -> no_match (pattern_of j) q) ->
    Re.search (pattern_of k) q Re.IGNORECASE = Some groups ->
    exists a : Answer,
      answer_question (Pd.DataFrame_of data) q = ret a /\
      answer_for k (selected k groups data) a.
Proof.
  intros k data q groups Hne Hearlier Hk.
  rewrite (dispatch_answers k _ q groups (conj Hearlier Hk)).
  eapply aggregation_meets_spec; eassumption.
Qed.

(** A question in which the patterns of templates 1 and 4 are both found:
    template 1 answers. *)
Lemma C7_first_match_wins_witness :
  Re.search (pattern_of T4) question_4_holding_1 Re.IGNORECASE
  = Some [py "Jane Doe"; long_city] /\
  exists a : Answer,
    answer_question (Pd.DataFrame_of scenario) question_4_holding_1 = ret a /\
    answer_for T1 (selected T1 [py "Widget"; py "Boston"] scenario) a.
Proof.
  split; [vm_compute; reflexivity|].
  apply (C7_first_match_wins T1 scenario question_4_holding_1
           [py "Widget"; py "Boston"]).
  - discriminate.
  - intros j Hj; destruct Hj.
  - vm_compute; reflexivity.
Defined.

(** C7, as stated, fails: the pattern of template 2 is found in the
    question, its filter selects no row, so that template 2 is to answer
    0; yet the answer is 350, the total of template 1, whose pattern is
    found as well and is tried first. *)
Lemma C7_counterexample :
  Re.search (pattern_of T2) question_2_holding_1 Re.IGNORECASE
  = Some [long_region] /\
  answer_question (Pd.DataFrame_of scenario) question_2_holding_1
  = ret (AInt 350) /\
  ~ answer_for T2 (selected T2 [long_region] scenario) (AInt 350).
Proof.
  split; [vm_compute; reflexivity|]; split; [vm_compute; reflexivity|].
  cbn [answer_for]; intros (n & Hn & Hd).
  assert (E : selected T2 [long_region] scenario = [])
    by (vm_compute; reflexivity).
  rewrite E in Hd; apply distinct_count_none in Hd; [|reflexivity].
  subst n; discriminate Hn.
Qed.

(* ================================================================== *)
(** ** Characters *)

Ltac each_char x := destruct x as [[] [] [] [] [] [] [] []].

Lemma is_word_lower (x : ascii) : Re.is_word (Re.lower x) = Re.is_word x.
Proof. each_char x; vm_compute; reflexivity. Qed.

Lemma punctuation_nocase (x : ascii) :
  (Re.chr_eqb Re.IGNORECASE "."%char x = true <-> x = "."%char) /\
  (Re.chr_eqb Re.IGNORECASE "'"%char x = true <-> x = "'"%char) /\
  (Re.chr_eqb Re.IGNORECASE "-"%char x = true <-> x = "-"%char).
Proof.
  each_char x; vm_compute; repeat split; intros H; congruence.
Qed.

Lemma in_set_w (x : ascii) :
  Re.in_cset Re.IGNORECASE set_w x = true <-> word_char x.
Proof.
  unfold Re.in_cset, set_w, word_char; cbn [existsb Re.in_item].
  rewrite orb_false_r; tauto.
Qed.

Lemma in_set_ws (x : ascii) :
  Re.in_cset Re.IGNORECASE set_ws x = true <-> word_or_space x.
Proof.
  unfold Re.in_cset, set_ws, word_or_space; cbn [existsb Re.in_item].
  rewrite orb_false_r, orb_true_iff; tauto.
Qed.

Lemma in_set_rep (x : ascii) :
  Re.in_cset Re.IGNORECASE set_rep x = true <-> rep_char x.
Proof.
  unfold Re.in_cset, set_rep, rep_char; cbn [existsb Re.in_item].
  destruct (punctuation_nocase x) as (H1 & H2 & H3).
  rewrite orb_false_r, !orb_true_iff, H1, H2, H3; tauto.
Qed.

Lemma forallb_Forall (f : ascii -> bool) (P : ascii -> Prop) (l : pystr) :
  (forall x, f x = true <-> P x) -> (forallb f l = true <-> Forall P l).
Proof.
  intros H; induction l as [|x l IH]; simpl.
  - split; auto.
  - rewrite andb_true_iff, IH, H; split.
    + intros [? ?]; constructor; assumption.
    + intros F; inversion F; auto.
Qed.

Lemma same_nocase_refl (a : pystr) : same_nocase a a.
Proof. reflexivity. Qed.

(** A literal matches any text that differs from it in letter case only. *)
Lemma lit_match_nocase (l w rest : pystr) :
  same_nocase w l -> Re.lit_match Re.IGNORECASE l (w ++ rest) = Some rest.
Proof.
  unfold same_nocase; revert w; induction l as [|a l IH]; intros [|x w] H;
    try discriminate; [reflexivity|].
  injection H as Hx Hw.
  cbn [app Re.lit_match]; unfold Re.chr_eqb, Re.IGNORECASE.
  rewrite Hx, Ascii.eqb_refl; apply IH; assumption.
Qed.

Lemma match_lit_nocase (l : pystr) (p : Re.pattern) (w rest : pystr) :
  same_nocase w l ->
  Re.match_here Re.IGNORECASE (Re.Lit l :: p) (w ++ rest)
  = Re.match_here Re.IGNORECASE p rest.
Proof.
  intros H; cbn [Re.match_here]; rewrite (lit_match_nocase l w rest H).
  reflexivity.
Qed.

Lemma firstn_exact (a b : pystr) : firstn (List.length a) (a ++ b) = a.
Proof. induction a; simpl; congruence. Qed.

Lemma skipn_exact (a b : pystr) : skipn (List.length a) (a ++ b) = b.
Proof. induction a; simpl; congruence. Qed.

(** A group followed by a character outside its set captures exactly the
    run before that character. *)
Lemma match_group_exact (flags : bool) (cs : Re.cset) (p : Re.pattern)
      (g : pystr) (c : ascii) (rest : pystr) (gs : list pystr) :
  captured_by flags cs g ->
  Re.in_cset flags cs c = false ->
  Re.match_here flags p (c :: rest) = Some gs ->
  Re.match_here flags (Re.Group cs :: p) (g ++ c :: rest) = Some (g :: gs).
Proof.
  intros [Hne Hg] Hc Hp; cbn [Re.match_here].
  rewrite (span_app_stop _ g c rest Hg Hc).
  rewrite <- (firstn_exact g (c :: rest)) at 3.
  apply backtrack_first.
  - destruct g; [contradiction | simpl; lia].
  - rewrite skipn_exact; assumption.
Qed.

Lemma same_nocase_head (w : pystr) (a : ascii) (l : pystr) :
  same_nocase w (a :: l) ->
  exists x w', w = x :: w' /\ Re.lower x = Re.lower a /\ same_nocase w' l.
Proof.
  unfold same_nocase; destruct w as [|x w']; [discriminate|].
  intros H; injection H as Hx Hw; exists x, w'; auto.
Qed.

(** The text of template 1, in any letter case of its fixed words, is
    matched at its head and captures the product and the city as
    written. *)
Lemma phrase1_match (w1 product_ w2 city_ tail : pystr) :
  same_nocase w1 (py "What is the total sales of ") ->
  same_nocase w2 (py " in ") ->
  captured_by Re.IGNORECASE set_w product_ ->
  captured_by Re.IGNORECASE set_w city_ ->
  Re.search pattern1 (phrase1 w1 product_ w2 city_ tail) Re.IGNORECASE
  = Some [product_; city_].
Proof.
  intros H1 H2 Hp Hc; apply search_here.
  unfold phrase1, pattern1; rewrite (match_lit_nocase _ _ _ _ H1).
  destruct (same_nocase_head _ _ _ H2) as (x & w2' & -> & Hx & _).
  change ((x :: w2') ++ city_ ++ py "?" ++ tail)
    with (x :: (w2' ++ city_ ++ py "?" ++ tail)).
  apply match_group_exact; [assumption| |].
  - unfold Re.in_cset, set_w; cbn [existsb Re.in_item].
    rewrite <- is_word_lower, Hx; reflexivity.
  - change (x :: (w2' ++ city_ ++ py "?" ++ tail))
      with ((x :: w2') ++ city_ ++ py "?" ++ tail).
    rewrite (match_lit_nocase _ _ _ _ H2).
    change (py "?" ++ tail) with ("?"%char :: tail).
    apply match_group_exact; [assumption | reflexivity | reflexivity].
Qed.

Lemma is_space_lower (x : ascii) : Re.is_space (Re.lower x) = Re.is_space x.
Proof. each_char x; vm_compute; reflexivity. Qed.

Lemma in_cset_nocase (cs : Re.cset) (x x' : ascii) :
  Re.lower x = Re.lower x' ->
  Re.in_cset Re.IGNORECASE cs x = Re.in_cset Re.IGNORECASE cs x'.
Proof.
  intros H; unfold Re.in_cset; induction cs as [|i cs IH]; [reflexivity|].
  cbn [existsb]; rewrite IH; f_equal.
  destruct i; cbn [Re.in_item].
  - rewrite <- (is_word_lower x), <- (is_word_lower x'), H; reflexivity.
  - rewrite <- (is_space_lower x), <- (is_space_lower x'), H; reflexivity.
  - unfold Re.chr_eqb, Re.IGNORECASE; rewrite H; reflexivity.
Qed.

Lemma same_nocase_nil (s : pystr) : same_nocase [] s -> s = [].
Proof. destruct s; [reflexivity | discriminate]. Qed.

Lemma same_nocase_cons (x : ascii) (s s' : pystr) :
  same_nocase (x :: s) s' ->
  exists x' t', s' = x' :: t' /\ Re.lower x = Re.lower x' /\ same_nocase s t'.
Proof.
  unfold same_nocase; destruct s' as [|x' t']; [discriminate|].
  intros H; injection H as Hx Hs; exists x', t'; auto.
Qed.

Lemma same_nocase_firstn (n : nat) (s s' : pystr) :
  same_nocase s s' -> same_nocase (firstn n s) (firstn n s').
Proof.
  unfold same_nocase; intros H; rewrite <- !firstn_map, H; reflexivity.
Qed.

Lemma same_nocase_skipn (n : nat) (s s' : pystr) :
  same_nocase s s' -> same_nocase (skipn n s) (skipn n s').
Proof.
  unfold same_nocase; intros H; rewrite <- !skipn_map, H; reflexivity.
Qed.

Lemma lit_match_same_nocase (l s s' : pystr) :
  same_nocase s s' ->
  match Re.lit_match Re.IGNORECASE l s, Re.lit_match Re.IGNORECASE l s' with
  | Some r, Some r' => same_nocase r r'
  | None, None => True
  | _, _ => False
  end.
Proof.
  revert s s'; induction l as [|a l IH]; intros s s' H; cbn [Re.lit_match].
  - assumption.
  - destruct s as [|x s].
    + apply same_nocase_nil in H; subst; exact I.
    + destruct (same_nocase_cons _ _ _ H) as (x' & t' & -> & Hx & Ht).
      unfold Re.chr_eqb, Re.IGNORECASE; rewrite Hx.
      destruct (Ascii.eqb (Re.lower a) (Re.lower x')); [apply IH; assumption|exact I].
Qed.

Lemma span_same_nocase (cs : Re.cset) (s s' : pystr) :
  same_nocase s s' ->
  Re.span (Re.in_cset Re.IGNORECASE cs) s = Re.span (Re.in_cset Re.IGNORECASE cs) s'.
Proof.
  revert s'; induction s as [|x s IH]; intros s' H.
  - apply same_nocase_nil in H; subst; reflexivity.
  - destruct (same_nocase_cons _ _ _ H) as (x' & t' & -> & Hx & Ht).
    cbn [Re.span]; rewrite (in_cset_nocase cs x x' Hx), (IH t' Ht); reflexivity.
Qed.

Lemma backtrack_same_nocase (k k' : pystr -> option (list pystr))
      (s s' : pystr) (n : nat) :
  (forall t t', same_nocase t t' -> same_outcome (k t) (k' t')) ->
  same_nocase s s' ->
  same_outcome (Re.backtrack k s n) (Re.backtrack k' s' n).
Proof.
  intros Hk H; induction n as [|n IH]; cbn [Re.backtrack]; [exact I|].
  pose proof (Hk _ _ (same_nocase_skipn (S n) s s' H)) as Hn.
  destruct (k (skipn (S n) s)) as [gs|], (k' (skipn (S n) s')) as [gs'|];
    cbn [same_outcome] in Hn |- *; try contradiction; [|exact IH].
  constructor; [apply same_nocase_firstn|]; assumption.
Qed.

Lemma match_here_same_nocase (p : Re.pattern) (s s' : pystr) :
  same_nocase s s' ->
  same_outcome (Re.match_here Re.IGNORECASE p s)
               (Re.match_here Re.IGNORECASE p s').
Proof.
  revert s s'; induction p as [|[l|cs] p IH]; intros s s' H.
  - constructor.
  - cbn [Re.match_here].
    pose proof (lit_match_same_nocase l s s' H) as Hl.
    destruct (Re.lit_match Re.IGNORECASE l s) as [r|],
             (Re.lit_match Re.IGNORECASE l s') as [r'|];
      try contradiction; [apply IH; assumption | exact I].
  - rewrite !match_here_group, (span_same_nocase cs s s' H).
    apply backtrack_same_nocase; assumption.
Qed.

(** Changing the case of letters of a text changes neither whether a
    pattern is found in it nor, up to case, what is captured. *)
Lemma search_same_nocase (p : Re.pattern) (s s' : pystr) :
  same_nocase s s' ->
  same_outcome (Re.search p s Re.IGNORECASE) (Re.search p s' Re.IGNORECASE).
Proof.
  revert s'; induction s as [|x s IH]; intros s' H.
  - apply same_nocase_nil in H; subst; cbn [Re.search].
    apply match_here_same_nocase; reflexivity.
  - pose proof (match_here_same_nocase p _ _ H) as Hm.
    destruct (same_nocase_cons _ _ _ H) as (x' & t' & -> & Hx & Ht).
    cbn [Re.search].
    destruct (Re.match_here Re.IGNORECASE p (x :: s)) as [gs|],
             (Re.match_here Re.IGNORECASE p (x' :: t')) as [gs'|];
      try contradiction; [exact Hm | apply IH; assumption].
Qed.

Lemma no_match_same_nocase (p : Re.pattern) (q q' : pystr) :
  same_nocase q q' -> no_match p q -> no_match p q'.
Proof.
  unfold no_match; intros Hq Hno.
  pose proof (search_same_nocase p q q' Hq) as S.
  rewrite Hno in S.
  destruct (Re.search p q' Re.IGNORECASE); [contradiction|reflexivity].
Qed.

Lemma found_same_nocase (p : Re.pattern) (q q' : pystr) (gs : list pystr) :
  same_nocase q q' ->
  Re.search p q Re.IGNORECASE = Some gs ->
  exists gs', Re.search p q' Re.IGNORECASE = Some gs' /\
              Forall2 same_nocase gs gs'.
Proof.
  intros Hq Hk.
  pose proof (search_same_nocase p q q' Hq) as S.
  rewrite Hk in S.
  destruct (Re.search p q' Re.IGNORECASE) as [gs'|]; [|contradiction].
  exists gs'; split; [reflexivity | exact S].
Qed.

(** C6 — The fixed words of a template are matched whatever their letter
    case, and the captured texts are compared with the fields as they
    stand. First, for each of the four templates: when a template answers
    a question, it also answers every question that differs from it only
    in letter case, capturing the same texts up to letter case; each of
    the two answers is what the template is to answer on the rows whose
    fields are exactly equal to the texts captured in that question; and
    when the captured texts are the same, the two answers are the same.
    Second, the wording of template 1 is matched whatever the case of its
    fixed words and captures the product and the city exactly as written.
    Third, there is a store holding the product "Widget" on which the
    capture "widget" selects no row and is answered 0, while the
    upper-case and the lower-case wording of the question about "Widget"
    are both answered 350. *)
Theorem C6_case_of_words_not_of_captures :
  (forall (data : list Row) (k : template) (gs : list pystr) (q q' : pystr),
      data <> [] ->
      same_nocase q q' ->
      (forall j, In j (earlier k) -> no_match (pattern_of j) q) ->
      Re.search (pattern_of k) q Re.IGNORECASE = Some gs ->
      exists (gs' : list pystr) (a a' : Answer),
        (forall j, In j (earlier k) -> no_match (pattern_of j) q') /\
        Re.search (pattern_of k) q' Re.IGNORECASE = Some gs' /\
        Forall2 same_nocase gs gs' /\
        answer_question (Pd.DataFrame_of data) q = ret a /\
        answer_for k (selected k gs data) a /\
        answer_question (Pd.DataFrame_of data) q' = ret a' /\
        answer_for k (selected k gs' data) a' /\
        (gs' = gs -> a' = a)) /\
  (forall (data : list Row) (w1 w2 product_ city_ tail : pystr),
      data <> [] ->
      same_nocase w1 (py "What is the total sales of ") ->
      same_nocase w2 (py " in ") ->
      captured_by Re.IGNORECASE set_w product_ ->
      captured_by Re.IGNORECASE set_w city_ ->
      Re.search pattern1 (phrase1 w1 product_ w2 city_ tail) Re.IGNORECASE
      = Some [product_; city_] /\
      exists a : Answer,
        answer_question (Pd.DataFrame_of data) (phrase1 w1 product_ w2 city_ tail)
        = ret a /\
        answer_for T1 (rows_with2 product city product_ city_ data) a) /\
  (exists data : list Row,
      (exists r, In r data /\ product r = py "Widget") /\
      Re.search pattern1 (py "What is the total sales of widget in Boston?")
        Re.IGNORECASE = Some [py "widget"; py "Boston"] /\
      rows_with2 product city (py "widget") (py "Boston") data = [] /\
      answer_question (Pd.DataFrame_of data)
        (py "What is the total sales of widget in Boston?") = ret (AInt 0) /\
      answer_question (Pd.DataFrame_of data)
        (py "WHAT IS THE TOTAL SALES OF Widget IN Boston?") = ret (AInt 350) /\
      answer_question (Pd.DataFrame_of data)
        (py "what is the total sales of Widget in Boston?") = ret (AInt 350)).
Proof.
  split; [|split].
  - intros data k gs q q' Hne Hq Hearlier Hk.
    destruct (found_same_nocase _ q q' gs Hq Hk) as (gs' & Hk' & Hgs).
    assert (Hearlier' : forall j, In j (earlier k) -> no_match (pattern_of j) q')
      by (intros j Hj; apply (no_match_same_nocase _ q q' Hq), Hearlier, Hj).
    destruct (aggregation_meets_spec k data q gs Hne Hk) as (a & Hagg & Hspec).
    destruct (aggregation_meets_spec k data q' gs' Hne Hk')
      as (a' & Hagg' & Hspec').
    exists gs', a, a'.
    rewrite (dispatch_answers k _ q gs (conj Hearlier Hk)),
            (dispatch_answers k _ q' gs' (conj Hearlier' Hk')).
    repeat (split; [assumption|]).
    intros ->; rewrite Hagg in Hagg'; injection Hagg' as <-; reflexivity.
  - intros data w1 w2 product_ city_ tail Hne H1 H2 Hp Hc.
    pose proof (phrase1_match w1 product_ w2 city_ tail H1 H2 Hp Hc) as Hs.
    split; [exact Hs|].
    destruct (total_sales_value data product_ city_ Hne) as (n & Hn & Ht).
    exists (AInt n); rewrite (dispatch1 _ _ _ Hs); split; [exact Hn|].
    exists n; split; trivial.
  - exists scenario; split.
    + exists (widget_row 100 2024 1 5); split; [left|]; reflexivity.
    + repeat split; vm_compute; reflexivity.
Qed.

(** The question of template 4 in upper case and in lower case, the rep
    and the city written the same. *)
Lemma C6_case_of_words_not_of_captures_witness :
  exists (gs' : list pystr) (a a' : Answer),
    (forall j, In j (earlier T4) ->
               no_match (pattern_of j)
                 (py "on what date did Jane Doe make the highest sale in Boston?")) /\
    Re.search (pattern_of T4)
      (py "on what date did Jane Doe make the highest sale in Boston?")
      Re.IGNORECASE = Some gs' /\
    Forall2 same_nocase [py "Jane Doe"; py "Boston"] gs' /\
    answer_question (Pd.DataFrame_of scenario)
      (py "ON WHAT DATE DID Jane Doe MAKE THE HIGHEST SALE IN Boston?")
    = ret a /\
    answer_for T4 (selected T4 [py "Jane Doe"; py "Boston"] scenario) a /\
    answer_question (Pd.DataFrame_of scenario)
      (py "on what date did Jane Doe make the highest sale in Boston?")
    = ret a' /\
    answer_for T4 (selected T4 gs' scenario) a' /\
    (gs' = [py "Jane Doe"; py "Boston"] -> a' = a).
Proof.
  apply (proj1 C6_case_of_words_not_of_captures scenario T4
           [py "Jane Doe"; py "Boston"]
           (py "ON WHAT DATE DID Jane Doe MAKE THE HIGHEST SALE IN Boston?")
           (py "on what date did Jane Doe make the highest sale in Boston?")).
  - discriminate.
  - reflexivity.
  - intros j Hj; simpl in Hj; destruct Hj as [<-|[<-|[<-|[]]]];
      vm_compute; reflexivity.
  - vm_compute; reflexivity.
Defined.

(* ================================================================== *)
(** ** The captures of template 4 *)

Lemma captured_by_rep (g : pystr) :
  captured_by Re.IGNORECASE set_rep g <-> g <> [] /\ Forall rep_char g.
Proof.
  unfold captured_by; rewrite (forallb_Forall _ rep_char g in_set_rep); tauto.
Qed.

Lemma captured_by_ws (g : pystr) :
  captured_by Re.IGNORECASE set_ws g <-> g <> [] /\ Forall word_or_space g.
Proof.
  unfold captured_by; rewrite (forallb_Forall _ word_or_space g in_set_ws); tauto.
Qed.

Lemma phrase4_match (rep_ city_ : pystr) :
  captured_by Re.IGNORECASE set_rep rep_ ->
  captured_by Re.IGNORECASE set_ws city_ ->
  exists gs, Re.match_here Re.IGNORECASE pattern4 (phrase4 rep_ city_) = Some gs.
Proof.
  intros [Hne Hr] Hc.
  unfold phrase4, pattern4.
  rewrite (match_lit_nocase _ _ _ _ (same_nocase_refl _)).
  rewrite match_here_group.
  eapply (backtrack_some _ _ _ (List.length rep_)).
  - destruct rep_; [contradiction | simpl; lia].
  - apply span_app_ge; assumption.
  - rewrite skipn_exact.
    rewrite (match_lit_nocase _ _ _ _ (same_nocase_refl _)).
    change (city_ ++ py "?") with (city_ ++ "?"%char :: []).
    apply match_group_exact; [assumption | reflexivity | reflexivity].
Qed.

(** C9 — In template 4 the rep capture is a non-empty run of word
    characters, whitespace, periods, apostrophes and hyphens, and the city
    capture is a non-empty run of word characters and whitespace. Hence a
    template-4 question matches the template whatever such texts fill its
    two slots, a city with a space in it included. *)
Theorem C9_template4_captures :
  (forall (q : pystr) (groups : list pystr),
      Re.search pattern4 q Re.IGNORECASE = Some groups ->
      exists rep_ city_,
        groups = [rep_; city_] /\
        rep_ <> [] /\ Forall rep_char rep_ /\
        city_ <> [] /\ Forall word_or_space city_) /\
  (forall rep_ city_ : pystr,
      rep_ <> [] -> Forall rep_char rep_ ->
      city_ <> [] -> Forall word_or_space city_ ->
      exists rep' city',
        Re.search pattern4 (phrase4 rep_ city_) Re.IGNORECASE
        = Some [rep'; city']).
Proof.
  split.
  - intros q groups H.
    destruct (search_two_groups pattern4 _ _ _ set_rep set_ws eq_refl H)
      as (a & b & -> & Ha & Hb).
    apply captured_by_rep in Ha; apply captured_by_ws in Hb.
    exists a, b; tauto.
  - intros rep_ city_ Hr1 Hr2 Hc1 Hc2.
    destruct (phrase4_match rep_ city_) as (gs & Hgs).
    + apply captured_by_rep; split; assumption.
    + apply captured_by_ws; split; assumption.
    + apply search_here in Hgs.
      destruct (search_two_groups pattern4 _ _ _ set_rep set_ws eq_refl Hgs)
        as (a & b & -> & _).
      exists a, b; assumption.
Qed.

Lemma C9_template4_captures_witness :
  exists rep' city',
    Re.search pattern4 (phrase4 (py "Jane O'Neil-Doe Jr.") (py "New York"))
      Re.IGNORECASE
    = Some [rep'; city'].
Proof.
  apply (proj2 C9_template4_captures (py "Jane O'Neil-Doe Jr.") (py "New York")).
  - discriminate.
  - apply (proj1 (forallb_Forall _ rep_char _ in_set_rep)); reflexivity.
  - discriminate.
  - apply (proj1 (forallb_Forall _ word_or_space _ in_set_ws)); reflexivity.
Defined.

(** C9, as stated, fails: the city slot of this template-4 question holds
    a space, and the question matches; here the groups are the rep
    "Jane Doe" and the city "New York", whose row is found. *)
Lemma C9_counterexample :
  In " "%char (py "New York") /\
  Re.search pattern4
    (py "On what date did Jane Doe make the highest sale in New York?")
    Re.IGNORECASE
  = Some [py "Jane Doe"; py "New York"] /\
  answer_question
    (Pd.DataFrame_of
       [{| product := py "Widget"; city := py "New York"; region := py "East";
           rep := py "Jane Doe"; sales := Int64.of_Z 70;
           date := {| year := 2024; month := 3; day := 9 |} |}])
    (py "On what date did Jane Doe make the highest sale in New York?")
  = ret (AStr (py "2024-03-09")).
Proof.
  split; [vm_compute; tauto|]; split; vm_compute; reflexivity.
Qed.

(* ================================================================== *)
(** ** What it means for a pattern to be found *)

Lemma lit_match_inv (l s r : pystr) :
  Re.lit_match Re.IGNORECASE l s = Some r ->
  exists w, s = w ++ r /\ same_nocase w l.
Proof.
  revert s; induction l as [|a l IH]; intros s; cbn [Re.lit_match].
  - intros H; injection H as <-; exists []; split; reflexivity.
  - destruct s as [|x s]; [discriminate|].
    destruct (Re.chr_eqb Re.IGNORECASE a x) eqn:E; [|discriminate].
    intros H; destruct (IH s H) as (w & -> & Hw).
    exists (x :: w); split; [reflexivity|].
    unfold same_nocase in *; cbn [map]; rewrite Hw; f_equal.
    unfold Re.chr_eqb, Re.IGNORECASE in E; apply Ascii.eqb_eq in E; auto.
Qed.

Lemma match_here_instance (p : Re.pattern) (s : pystr) (gs : list pystr) :
  Re.match_here Re.IGNORECASE p s = Some gs ->
  exists m rest, s = m ++ rest /\ instance_of p gs m.
Proof.
  revert s gs; induction p as [|[l|cs] p IH]; intros s gs.
  - cbn [Re.match_here]; intros H; injection H as <-.
    exists [], s; split; [reflexivity | split; reflexivity].
  - cbn [Re.match_here].
    destruct (Re.lit_match Re.IGNORECASE l s) as [r|] eqn:E; [|discriminate].
    intros H; destruct (lit_match_inv _ _ _ E) as (w & -> & Hw).
    destruct (IH r gs H) as (m & rest & -> & Hm).
    exists (w ++ m), rest; split; [rewrite app_assoc; reflexivity|].
    cbn [instance_of]; exists w, m; auto.
  - rewrite match_here_group; intros H; apply backtrack_inv in H.
    destruct H as (n & gs' & H1 & H2 & Hk & ->).
    destruct (IH _ _ Hk) as (m & rest & E & Hm).
    exists (firstn n s ++ m), rest; split.
    + rewrite <- app_assoc, <- E; symmetry; apply firstn_skipn.
    + cbn [instance_of]; exists (firstn n s), gs', m.
      repeat split; try assumption.
      * eapply span_firstn_nonempty; eassumption.
      * apply span_firstn; assumption.
Qed.

Lemma instance_match_here (p : Re.pattern) (gs : list pystr) (m tail : pystr) :
  instance_of p gs m ->
  exists gs', Re.match_here Re.IGNORECASE p (m ++ tail) = Some gs'.
Proof.
  revert gs m; induction p as [|[l|cs] p IH]; intros gs m; cbn [instance_of].
  - intros _; eexists; reflexivity.
  - intros (w & m' & -> & Hw & Hm).
    rewrite <- app_assoc, (match_lit_nocase _ _ _ _ Hw); eapply IH; eassumption.
  - intros (g & gs' & m' & -> & -> & [Hne Hg] & Hm).
    destruct (IH _ _ Hm) as (gs2 & H2).
    rewrite match_here_group, <- app_assoc.
    eapply (backtrack_some _ _ _ (List.length g)).
    + destruct g; [contradiction | simpl; lia].
    + apply span_app_ge; assumption.
    + rewrite skipn_exact; exact H2.
Qed.

Lemma search_after_prefix (p : Re.pattern) (pre s : pystr) (gs : list pystr) :
  Re.match_here Re.IGNORECASE p s = Some gs ->
  exists gs', Re.search p (pre ++ s) Re.IGNORECASE = Some gs'.
Proof.
  intros H; induction pre as [|c pre IH].
  - exists gs; apply search_here; assumption.
  - cbn [app Re.search].
    destruct (Re.match_here Re.IGNORECASE p (c :: pre ++ s)) as [g|];
      [eexists; reflexivity | exact IH].
Qed.

(** X1 — A pattern of [answer_question] is found in a question exactly
    when the question contains an instance of it: the fixed words in any
    letter case, each capture slot filled with a non-empty run of the
    characters its set admits. What is captured is the filling of the
    slots of such an instance. *)
Theorem X1_found_iff_instance :
  forall (k : template) (q : pystr),
    (forall gs, Re.search (pattern_of k) q Re.IGNORECASE = Some gs ->
                exists pre m tail,
                  q = pre ++ m ++ tail /\ instance_of (pattern_of k) gs m) /\
    (forall pre m tail gs,
        q = pre ++ m ++ tail -> instance_of (pattern_of k) gs m ->
        exists gs', Re.search (pattern_of k) q Re.IGNORECASE = Some gs').
Proof.
  intros k q; split.
  - intros gs H; destruct (search_inv _ _ _ _ H) as (pre & s & -> & Hs).
    destruct (match_here_instance _ _ _ Hs) as (m & rest & -> & Hm).
    exists pre, m, rest; split; [reflexivity | assumption].
  - intros pre m tail gs -> Hm.
    destruct (instance_match_here _ _ _ tail Hm) as (gs' & H').
    eapply search_after_prefix; eassumption.
Qed.

Lemma X1_found_iff_instance_witness :
  exists gs',
    Re.search (pattern_of T2)
      (py "Tell me: HOW MANY sales reps are there in North East? Thanks")
      Re.IGNORECASE = Some gs'.
Proof.
  apply (proj2 (X1_found_iff_instance T2
                  (py "Tell me: HOW MANY sales reps are there in North East? Thanks"))
           (py "Tell me: ") (py "HOW MANY sales reps are there in North East?")
           (py " Thanks") [py "North East"]).
  - reflexivity.
  - cbn [pattern_of pattern2 instance_of].
    exists (py "HOW MANY sales reps are there in "), (py "North East?").
    split; [reflexivity|]; split; [reflexivity|].
    exists (py "North East"), [], (py "?").
    split; [reflexivity|]; split; [reflexivity|].
    split; [split; [discriminate | reflexivity]|].
    exists (py "?"), []; split; [reflexivity|]; split; [reflexivity|].
    split; reflexivity.
Defined.

(** For template 1 the instance reads: the fixed words, a product and a
    city made of word characters, and the question mark. *)
Example instance_of_pattern1 (gs : list pystr) (m : pystr) :
  instance_of pattern1 gs m <->
  exists w1 product_ w2 city_,
    gs = [product_; city_] /\
    m = phrase1 w1 product_ w2 city_ [] /\
    same_nocase w1 (py "What is the total sales of ") /\
    captured_by Re.IGNORECASE set_w product_ /\
    same_nocase w2 (py " in ") /\
    captured_by Re.IGNORECASE set_w city_.
Proof.
  unfold pattern1, phrase1; cbn [instance_of]; split.
  - intros (w1 & m1 & -> & H1 & a & gs1 & m2 & -> & -> & Ha &
            w2 & m3 & -> & H2 & b & gs2 & m4 & -> & -> & Hb &
            w3 & m5 & -> & H3 & -> & ->).
    exists w1, a, w2, b; repeat split; try assumption; try apply Ha; try apply Hb.
    destruct (same_nocase_head _ _ _ H3) as (x & w' & -> & Hx & Hn).
    apply eq_sym, same_nocase_nil in Hn; subst w'.
    assert (x = "?"%char) as ->; [|rewrite !app_nil_r; reflexivity].
    revert Hx; clear; each_char x; vm_compute; congruence.
  - intros (w1 & a & w2 & b & -> & -> & H1 & Ha & H2 & Hb).
    exists w1, (a ++ w2 ++ b ++ py "?" ++ []); split; [reflexivity|].
    split; [assumption|].
    exists a, [b], (w2 ++ b ++ py "?" ++ []); repeat split; try apply Ha.
    exists w2, (b ++ py "?" ++ []); repeat split; try assumption.
    exists b, [], (py "?" ++ []); repeat split; try apply Hb.
    exists (py "?"), []; repeat split.
Qed.

(* ================================================================== *)
(** ** Questions that cannot be understood *)

Lemma question_mark_nocase (w : pystr) : same_nocase w (py "?") -> w = py "?".
Proof.
  intros H; destruct (same_nocase_head _ _ _ H) as (x & w' & -> & Hx & Hn).
  apply eq_sym, same_nocase_nil in Hn; subst w'.
  assert (x = "?"%char) as ->; [|reflexivity].
  revert Hx; clear; each_char x; vm_compute; congruence.
Qed.

(** Every instance of one of the four patterns holds a question mark. *)
Lemma instance_has_question_mark (k : template) (gs : list pystr) (m : pystr) :
  instance_of (pattern_of k) gs m -> In "?"%char m.
Proof.
  destruct k; cbn [pattern_of]; unfold pattern1, pattern2, pattern3, pattern4;
    cbn [instance_of]; intros H;
    repeat match goal with
      | H : exists _, _ |- _ => destruct H
      | H : _ /\ _ |- _ => destruct H
      end; subst;
    match goal with
    | H : same_nocase ?w (py "?") |- _ => apply question_mark_nocase in H; subst w
    end;
    rewrite !in_app_iff; simpl; intuition.
Qed.

Lemma found_has_question_mark (k : template) (q : pystr) (gs : list pystr) :
  Re.search (pattern_of k) q Re.IGNORECASE = Some gs -> In "?"%char q.
Proof.
  intros H; destruct (search_inv _ _ _ _ H) as (pre & s & -> & Hs).
  destruct (match_here_instance _ _ _ Hs) as (m & rest & -> & Hm).
  apply in_or_app; right; apply in_or_app; left.
  eapply instance_has_question_mark; eassumption.
Qed.

Lemma not_found_without_question_mark (k : template) (q : pystr) :
  ~ In "?"%char q -> no_match (pattern_of k) q.
Proof.
  intros Hq; unfold no_match.
  destruct (Re.search (pattern_of k) q Re.IGNORECASE) as [gs|] eqn:E;
    [|reflexivity].
  exfalso; apply Hq; eapply found_has_question_mark; eassumption.
Qed.

(** X2 — A question without a question mark is never understood: all four
    patterns end with [\?], so [answer_question] returns
    "Sorry, I can't answer that question." whatever the frame, and the
    endpoint returns it over every store that is not empty. *)
Theorem X2_no_question_mark :
  forall (df : Pd.DataFrame) (q : pystr),
    ~ In "?"%char q ->
    answer_question df q
    = ret (AStr (py "Sorry, I can't answer that question.")) /\
    (Pd.empty df = false ->
     handle_query df q
     = ret (response (AStr (py "Sorry, I can't answer that question.")))).
Proof.
  intros df q Hq.
  assert (Ha : answer_question df q = ret (AStr msg_sorry)).
  { apply dispatch_none.
    - apply (not_found_without_question_mark T1); assumption.
    - apply (not_found_without_question_mark T2); assumption.
    - apply (not_found_without_question_mark T3); assumption.
    - apply (not_found_without_question_mark T4); assumption. }
  split; [exact Ha|].
  intros He; apply handle_query_loaded; assumption.
Qed.

Lemma X2_no_question_mark_witness :
  answer_question (Pd.DataFrame_of scenario)
    (py "What is the total sales of Widget in Boston")
  = ret (AStr (py "Sorry, I can't answer that question.")) /\
  (Pd.empty (Pd.DataFrame_of scenario) = false ->
   handle_query (Pd.DataFrame_of scenario)
     (py "What is the total sales of Widget in Boston")
   = ret (response (AStr (py "Sorry, I can't answer that question.")))).
Proof.
  apply (X2_no_question_mark (Pd.DataFrame_of scenario)
           (py "What is the total sales of Widget in Boston")).
  vm_compute; intuition discriminate.
Defined.

(* ================================================================== *)
(** ** The frame without columns *)

Lemma select_unloaded (df : Pd.DataFrame) (mask : Row -> bool) :
  Pd.has_columns df = false -> Pd.select df mask = raise KeyError.
Proof. intros H; unfold Pd.select; rewrite H; reflexivity. Qed.

Lemma aggregation_unloaded (k : template) (df : Pd.DataFrame) (q : pystr)
      (gs : list pystr) :
  Pd.has_columns df = false ->
  Re.search (pattern_of k) q Re.IGNORECASE = Some gs ->
  aggregation k df gs = raise KeyError.
Proof.
  intros Hc H; destruct k; cbn [pattern_of aggregation] in *.
  - destruct (search_two_groups pattern1 _ _ _ set_w set_w eq_refl H)
      as (a & b & -> & _).
    unfold total_sales, unpack2; unfold bind, ret; cbv beta iota.
    rewrite select_unloaded by assumption; reflexivity.
  - destruct (search_one_group pattern2 _ _ _ set_ws eq_refl H) as (a & -> & _).
    unfold count_reps, item0; unfold bind, ret; cbv beta iota.
    rewrite select_unloaded by assumption; reflexivity.
  - destruct (search_two_groups pattern3 _ _ _ set_w set_ws eq_refl H)
      as (a & b & -> & _).
    unfold average_sales, unpack2; unfold bind, ret; cbv beta iota.
    rewrite select_unloaded by assumption; reflexivity.
  - destruct (search_two_groups pattern4 _ _ _ set_rep set_ws eq_refl H)
      as (a & b & -> & _).
    unfold highest_sale_date, unpack2; unfold bind, ret; cbv beta iota.
    rewrite select_unloaded by assumption; reflexivity.
Qed.

(** X3 — Called on the frame [pd.DataFrame()], which has no columns,
    [answer_question] raises [KeyError] exactly when one of the four
    patterns is found in the question, and returns the not-understood
    text otherwise: the test [df.empty] of [handle_query] is what keeps
    the endpoint from failing when the data file is missing. *)
Theorem X3_unguarded_engine_raises :
  forall (df : Pd.DataFrame) (q : pystr),
    Pd.has_columns df = false ->
    ((exists k gs, Re.search (pattern_of k) q Re.IGNORECASE = Some gs) ->
     answer_question df q = raise KeyError) /\
    ((forall k, no_match (pattern_of k) q) ->
     answer_question df q
     = ret (AStr (py "Sorry, I can't answer that question."))).
Proof.
  intros df q Hc; split.
  - intros Hfound.
    destruct (Re.search pattern1 q Re.IGNORECASE) as [g1|] eqn:E1.
    { rewrite (dispatch1 _ _ _ E1).
      apply (aggregation_unloaded T1 df q); assumption. }
    destruct (Re.search pattern2 q Re.IGNORECASE) as [g2|] eqn:E2.
    { rewrite (dispatch2 _ _ _ E1 E2).
      apply (aggregation_unloaded T2 df q); assumption. }
    destruct (Re.search pattern3 q Re.IGNORECASE) as [g3|] eqn:E3.
    { rewrite (dispatch3 _ _ _ E1 E2 E3).
      apply (aggregation_unloaded T3 df q); assumption. }
    destruct (Re.search pattern4 q Re.IGNORECASE) as [g4|] eqn:E4.
    { rewrite (dispatch4 _ _ _ E1 E2 E3 E4).
      apply (aggregation_unloaded T4 df q); assumption. }
    destruct Hfound as ([] & gs & H); cbn [pattern_of] in H; congruence.
  - intros Hnone; apply dispatch_none;
      [apply (Hnone T1) | apply (Hnone T2) | apply (Hnone T3) | apply (Hnone T4)].
Qed.

Lemma X3_unguarded_engine_raises_witness :
  ((exists k gs,
       Re.search (pattern_of k) (py "How many sales reps are there in East?")
         Re.IGNORECASE = Some gs) ->
   answer_question (Pd.DataFrame_of [])
     (py "How many sales reps are there in East?") = raise KeyError) /\
  ((forall k, no_match (pattern_of k) (py "How many sales reps are there in East?")) ->
   answer_question (Pd.DataFrame_of [])
     (py "How many sales reps are there in East?")
   = ret (AStr (py "Sorry, I can't answer that question."))).
Proof.
  apply (X3_unguarded_engine_raises (Pd.DataFrame_of [])
           (py "How many sales reps are there in East?")).
  reflexivity.
Defined.

(* ================================================================== *)
(** ** The endpoint *)

Lemma answer_question_returns (df : Pd.DataFrame) (q : pystr) :
  Pd.has_columns df = true -> exists a, answer_question df q = ret a.
Proof.
  intros Hc; unfold answer_question.
  destruct (Re.search pattern1 q Re.IGNORECASE) as [gs|] eqn:E1.
  { destruct (search_two_groups pattern1 _ _ _ set_w set_w eq_refl E1)
      as (a & b & -> & _).
    apply total_sales_returns; assumption. }
  destruct (Re.search pattern2 q Re.IGNORECASE) as [gs|] eqn:E2.
  { destruct (search_one_group pattern2 _ _ _ set_ws eq_refl E2) as (a & -> & _).
    apply count_reps_returns; assumption. }
  destruct (Re.search pattern3 q Re.IGNORECASE) as [gs|] eqn:E3.
  { destruct (search_two_groups pattern3 _ _ _ set_w set_ws eq_refl E3)
      as (a & b & -> & _).
    apply average_sales_returns; assumption. }
  destruct (Re.search pattern4 q Re.IGNORECASE) as [gs|] eqn:E4.
  { destruct (search_two_groups pattern4 _ _ _ set_rep set_ws eq_refl E4)
      as (a & b & -> & _).
    apply highest_sale_date_returns; assumption. }
  eexists; reflexivity.
Qed.

(** X4 — On the stores of this development (integer sales held in 64
    bits, every field present) the endpoint answers every request:
    whatever the store, empty or not, and whatever the question,
    [handle_query] returns a response and raises nothing; the response
    carries the address "22f3003185@ds.study.iitm.ac.in" both in its
    [email] field and in the [X-Email] header; its answer is the
    dataset-unavailable text on an empty store and the value of
    [answer_question] otherwise. *)
Theorem X4_endpoint_always_responds :
  forall (df : Pd.DataFrame) (q : pystr),
    exists r : Response,
      handle_query df q = ret r /\
      email r = py "22f3003185@ds.study.iitm.ac.in" /\
      header_X_Email r = py "22f3003185@ds.study.iitm.ac.in" /\
      (if Pd.empty df
       then answer r = AStr (py "Error: Dataset not loaded.")
       else answer_question df q = ret (answer r)).
Proof.
  intros df q; unfold handle_query.
  destruct (Pd.empty df) eqn:He.
  - eexists; split; [reflexivity|]; repeat split.
  - destruct (answer_question_returns df q (loaded_has_columns df He))
      as (a & Ha).
    rewrite Ha; eexists; split; [reflexivity|]; repeat split.
Qed.

(** A text returned by a branch is a date or the no-data message. *)
Lemma highest_sale_date_text (df : Pd.DataFrame) (gs : list pystr) (a : Answer) :
  highest_sale_date df gs = ret a ->
  a = AStr msg_no_sales \/ exists t, a = AStr (strftime_Ymd t).
Proof.
  unfold highest_sale_date, unpack2.
  destruct gs as [|x [|y [|z gs]]]; try discriminate.
  unfold bind, ret; cbv beta iota.
  destruct (Pd.select df _) as [e|subset]; [discriminate|].
  destruct (negb (Pd.empty subset)).
  - destruct (Pd.column subset sales) as [e|col]; [discriminate|].
    destruct (Pd.idxmax col) as [e|label]; [discriminate|].
    destruct (Pd.loc subset label) as [e|row]; [discriminate|].
    intros H; injection H as <-; right; eexists; reflexivity.
  - intros H; injection H as <-; left; reflexivity.
Qed.

Lemma total_sales_int (df : Pd.DataFrame) (gs : list pystr) (a : Answer) :
  total_sales df gs = ret a -> exists n, a = AInt n.
Proof.
  unfold total_sales, unpack2.
  destruct gs as [|x [|y [|z gs]]]; try discriminate.
  unfold bind, ret; cbv beta iota.
  destruct (Pd.select df _) as [e|sub]; [discriminate|].
  destruct (Pd.column sub sales) as [e|col]; [discriminate|].
  intros H; injection H as <-; eexists; reflexivity.
Qed.

Lemma count_reps_int (df : Pd.DataFrame) (gs : list pystr) (a : Answer) :
  count_reps df gs = ret a -> exists n, a = AInt n.
Proof.
  unfold count_reps, item0.
  destruct gs as [|x gs]; try discriminate.
  unfold bind, ret; cbv beta iota.
  destruct (Pd.select df _) as [e|sub]; [discriminate|].
  destruct (Pd.column sub rep) as [e|col]; [discriminate|].
  intros H; injection H as <-; eexists; reflexivity.
Qed.

Lemma average_sales_number (df : Pd.DataFrame) (gs : list pystr) (a : Answer) :
  average_sales df gs = ret a ->
  a = AInt 0 \/
  exists vs : list Z, vs <> [] /\ a = AFloat (round_to (mean_of vs) 2).
Proof.
  unfold average_sales, unpack2.
  destruct gs as [|x [|y [|z gs]]]; try discriminate.
  unfold bind, ret; cbv beta iota.
  destruct (Pd.select df _) as [e|sub]; [discriminate|].
  destruct (Pd.column sub sales) as [e|col]; [discriminate|].
  destruct col as [|lv col]; cbn [Pd.mean]; intros H; injection H as <-.
  - left; reflexivity.
  - right; eexists; split; [|reflexivity]; discriminate.
Qed.

(** X5 — The shape of an answer: [answer_question] returns an integer; or
    the value of [round(m, 2)] for the mean [m] of at least one sale; or
    one of the two fixed messages; or the text of a date: digits of the
    year, a hyphen, two digits of the month, a hyphen, two digits of the
    day, the year in four digits when it lies between 1000 and 9999. It
    never returns anything else. *)
Theorem X5_answer_shapes :
  forall (df : Pd.DataFrame) (q : pystr) (a : Answer),
    answer_question df q = ret a ->
    (exists n, a = AInt n) \/
    (exists vs : list Z, vs <> [] /\ a = AFloat (round_to (mean_of vs) 2)) \/
    a = AStr (py "No sales data found for this rep in this city.") \/
    a = AStr (py "Sorry, I can't answer that question.") \/
    (exists t s, a = AStr s /\ formats_as_Ymd t s).
Proof.
  intros df q a; unfold answer_question.
  destruct (Re.search pattern1 q Re.IGNORECASE) as [g1|].
  { intros H; left; eapply total_sales_int; eassumption. }
  destruct (Re.search pattern2 q Re.IGNORECASE) as [g2|].
  { intros H; left; eapply count_reps_int; eassumption. }
  destruct (Re.search pattern3 q Re.IGNORECASE) as [g3|].
  { intros H; destruct (average_sales_number _ _ _ H) as [->|Hx];
      [left; eexists; reflexivity | right; left; assumption]. }
  destruct (Re.search pattern4 q Re.IGNORECASE) as [g4|].
  { intros H; destruct (highest_sale_date_text _ _ _ H) as [->|(t & ->)].
    - right; right; left; reflexivity.
    - do 4 right; exists t, (strftime_Ymd t); split; [reflexivity|].
      apply strftime_Ymd_format. }
  intros H; injection H as <-; do 3 right; left; reflexivity.
Qed.

Lemma X5_answer_shapes_witness :
  (exists n, AStr (py "2024-02-10") = AInt n) \/
  (exists vs : list Z,
      vs <> [] /\ AStr (py "2024-02-10") = AFloat (round_to (mean_of vs) 2)) \/
  AStr (py "2024-02-10")
  = AStr (py "No sales data found for this rep in this city.") \/
  AStr (py "2024-02-10") = AStr (py "Sorry, I can't answer that question.") \/
  (exists t s, AStr (py "2024-02-10") = AStr s /\ formats_as_Ymd t s).
Proof.
  apply (X5_answer_shapes (Pd.DataFrame_of scenario)
           (py "On what date did Jane Doe make the highest sale in Boston?")
           (AStr (py "2024-02-10"))).
  vm_compute; reflexivity.
Defined.

Lemma date_text_not_message (t : Timestamp) : strftime_Ymd t <> msg_not_loaded.
Proof.
  intros E.
  destruct (strftime_Ymd_format t) as (Y & M & D & Hs & Hd & _).
  rewrite E in Hs; destruct Y as [|c Y].
  - discriminate Hs.
  - injection Hs as Hc _; subst c; discriminate Hd.
Qed.

Lemma answer_never_not_loaded (df : Pd.DataFrame) (q : pystr) :
  answer_question df q <> ret (AStr msg_not_loaded).
Proof.
  unfold answer_question; intros H.
  destruct (Re.search pattern1 q Re.IGNORECASE) as [g1|].
  { destruct (total_sales_int _ _ _ H); discriminate. }
  destruct (Re.search pattern2 q Re.IGNORECASE) as [g2|].
  { destruct (count_reps_int _ _ _ H); discriminate. }
  destruct (Re.search pattern3 q Re.IGNORECASE) as [g3|].
  { destruct (average_sales_number _ _ _ H) as [E|(vs & _ & E)]; discriminate. }
  destruct (Re.search pattern4 q Re.IGNORECASE) as [g4|].
  { destruct (highest_sale_date_text _ _ _ H) as [E|(t & E)]; [discriminate|].
    injection E as E; symmetry in E; exact (date_text_not_message t E). }
  discriminate.
Qed.

(** X6 — Once start-up has produced a store, the endpoint answers
    "Error: Dataset not loaded." exactly when the data file was missing:
    a store read from a file is never empty, and [answer_question] never
    returns that text. *)
Theorem X6_unavailable_iff_file_missing :
  forall (file : option (list Row)) (df : Pd.DataFrame) (q : pystr)
         (r : Response),
    load_dataset file = ret df ->
    handle_query df q = ret r ->
    (answer r = AStr (py "Error: Dataset not loaded.") <-> file = None).
Proof.
  intros file df q r Hload Hr.
  destruct file as [[|row data]|]; cbn [load_dataset] in Hload.
  - discriminate.
  - injection Hload as <-.
    unfold handle_query in Hr.
    change (Pd.empty (Pd.DataFrame_of (row :: data))) with false in Hr.
    cbv iota in Hr; unfold bind in Hr.
    destruct (answer_question (Pd.DataFrame_of (row :: data)) q) as [e|a] eqn:Ha;
      [discriminate|].
    injection Hr as <-; cbn [answer].
    split; [|discriminate].
    intros ->; exfalso; exact (answer_never_not_loaded _ _ Ha).
  - injection Hload as <-.
    unfold handle_query in Hr.
    change (Pd.empty (Pd.DataFrame_of [])) with true in Hr.
    injection Hr as <-; split; reflexivity.
Qed.

Lemma X6_unavailable_iff_file_missing_witness :
  answer (response (AInt 350)) = AStr (py "Error: Dataset not loaded.")
  <-> Some scenario = None.
Proof.
  apply (X6_unavailable_iff_file_missing (Some scenario)
           (Pd.DataFrame_of scenario)
           (py "What is the total sales of Widget in Boston?")
           (response (AInt 350))).
  - reflexivity.
  - vm_compute; reflexivity.
Defined.

(* ================================================================== *)
(** ** The answers as functions of the selected rows *)

Lemma total_sales_of_rows (data : list Row) (a b : pystr) :
  data <> [] ->
  total_sales (Pd.DataFrame_of data) [a; b]
  = ret (AInt (Int64.wrap (total (map amount (rows_with2 product city a b data))))).
Proof.
  intros Hne; unfold total_sales; run_branch Hne.
  unfold py_int; rewrite sum_total, select2_rows; reflexivity.
Qed.

Lemma count_reps_of_rows (data : list Row) (a : pystr) :
  data <> [] ->
  count_reps (Pd.DataFrame_of data) [a]
  = ret (AInt (Z.of_nat
                 (List.length (Pd.unique (map rep (rows_with region a data)))))).
Proof.
  intros Hne; unfold count_reps; run_branch Hne.
  unfold Pd.nunique; rewrite column_values, select1_rows; reflexivity.
Qed.

Lemma average_sales_of_rows (data : list Row) (a b : pystr) :
  data <> [] ->
  average_sales (Pd.DataFrame_of data) [a; b]
  = ret (match rows_with2 product region a b data with
         | [] => AInt 0
         | _ :: _ =>
             AFloat (py_round
                       (mean_of (map amount (rows_with2 product region a b data)))
                       2)
         end).
Proof.
  intros Hne; destruct (average_sales_value data a b Hne) as [H0 H1].
  destruct (rows_with2 product region a b data) as [|r l] eqn:E.
  - apply H0; reflexivity.
  - apply H1; discriminate.
Qed.

Lemma keep_larger_snd (b c : nat * Row) :
  snd (keep_larger (fun lr => amount (snd lr)) b c)
  = keep_larger amount (snd b) (snd c).
Proof.
  unfold keep_larger; destruct (amount (snd b) <? amount (snd c))%Z;
    reflexivity.
Qed.

Lemma fold_keep_larger_snd (t : list (nat * Row)) (b : nat * Row) :
  snd (fold_left (keep_larger (fun lr => amount (snd lr))) t b)
  = fold_left (keep_larger amount) (map snd t) (snd b).
Proof.
  revert b; induction t as [|c t IH]; intros b; [reflexivity|].
  cbn [map fold_left]; rewrite IH, keep_larger_snd; reflexivity.
Qed.

Lemma idxmax_then_loc_row (b : nat * Row) (t : list (nat * Row)) :
  NoDup (map fst (b :: t)) ->
  (label <- Pd.idxmax (map (fun lr => (fst lr, sales (snd lr))) (b :: t)) ;;
   Pd.loc {| Pd.has_columns := true; Pd.rows := b :: t |} label)
  = ret (fold_left (keep_larger amount) (map snd t) (snd b)).
Proof.
  intros Hnd; rewrite idxmax_column; unfold bind, ret, Pd.loc; cbn [Pd.rows].
  destruct (fold_keep_larger _ (fun x => amount (snd x)) t b) as (i & Hi & _).
  rewrite (find_by_label (b :: t) _ Hnd (nth_error_In _ _ Hi)).
  rewrite fold_keep_larger_snd; reflexivity.
Qed.

Lemma highest_sale_date_of_rows (data : list Row) (a b : pystr) :
  data <> [] ->
  highest_sale_date (Pd.DataFrame_of data) [a; b]
  = ret (AStr (match rows_with2 rep city a b data with
               | [] => msg_no_sales
               | r :: t => strftime_Ymd (date (fold_left (keep_larger amount) t r))
               end)).
Proof.
  intros Hne; unfold highest_sale_date; run_branch Hne.
  rewrite <- select2_rows.
  set (l := filter _ _).
  assert (Hnd : NoDup (map fst l)).
  { apply labels_after_filter; rewrite labels_of_records; apply seq_NoDup. }
  destruct l as [|lr t]; [reflexivity|].
  cbv beta iota; cbn [map].
  pose proof (idxmax_then_loc_row lr t Hnd) as H.
  unfold bind, ret in H |- *.
  destruct (Pd.idxmax _) as [e|label]; [discriminate|].
  rewrite H; reflexivity.
Qed.

(** X7 — Over stores of integer sales, the answer depends on the store
    only through the rows that the filter of the answering template
    selects: two loaded stores in which these rows are the same, in the
    same order, receive the same answer, whatever other rows they hold
    and wherever these stand. For template 4 this holds although the row
    is fetched through its index label, which the other rows shift. *)
Theorem X7_only_selected_rows_matter :
  forall (data data' : list Row) (q : pystr) (k : template) (gs : list pystr),
    data <> [] -> data' <> [] ->
    answers k gs q ->
    selected k gs data = selected k gs data' ->
    answer_question (Pd.DataFrame_of data) q
    = answer_question (Pd.DataFrame_of data') q.
Proof.
  intros data data' q k gs Hne Hne' [Hearlier Hk] Hsel.
  destruct k; cbn [pattern_of earlier] in *.
  - rewrite !(dispatch1 _ _ _ Hk).
    destruct (search_two_groups pattern1 _ _ _ set_w set_w eq_refl Hk)
      as (a & b & -> & _); cbn [selected] in Hsel.
    rewrite !total_sales_of_rows, Hsel by assumption; reflexivity.
  - assert (H1 : no_match pattern1 q) by (apply (Hearlier T1); simpl; tauto).
    rewrite !(dispatch2 _ _ _ H1 Hk).
    destruct (search_one_group pattern2 _ _ _ set_ws eq_refl Hk) as (a & -> & _).
    cbn [selected] in Hsel.
    rewrite !count_reps_of_rows, Hsel by assumption; reflexivity.
  - assert (H1 : no_match pattern1 q) by (apply (Hearlier T1); simpl; tauto).
    assert (H2 : no_match pattern2 q) by (apply (Hearlier T2); simpl; tauto).
    rewrite !(dispatch3 _ _ _ H1 H2 Hk).
    destruct (search_two_groups pattern3 _ _ _ set_w set_ws eq_refl Hk)
      as (a & b & -> & _); cbn [selected] in Hsel.
    rewrite !average_sales_of_rows, Hsel by assumption; reflexivity.
  - assert (H1 : no_match pattern1 q) by (apply (Hearlier T1); simpl; tauto).
    assert (H2 : no_match pattern2 q) by (apply (Hearlier T2); simpl; tauto).
    assert (H3 : no_match pattern3 q) by (apply (Hearlier T3); simpl; tauto).
    rewrite !(dispatch4 _ _ _ H1 H2 H3 Hk).
    destruct (search_two_groups pattern4 _ _ _ set_rep set_ws eq_refl Hk)
      as (a & b & -> & _); cbn [selected] in Hsel.
    rewrite !highest_sale_date_of_rows, Hsel by assumption; reflexivity.
Qed.

Lemma X7_only_selected_rows_matter_witness :
  answer_question (Pd.DataFrame_of scenario)
    (py "On what date did Jane Doe make the highest sale in Boston?")
  = answer_question
      (Pd.DataFrame_of
         ({| product := py "Gadget"; city := py "Austin"; region := py "South";
             rep := py "John Roe"; sales := Int64.of_Z 900;
             date := {| year := 2023; month := 12; day := 31 |} |} :: scenario))
      (py "On what date did Jane Doe make the highest sale in Boston?").
Proof.
  apply (X7_only_selected_rows_matter scenario _
           (py "On what date did Jane Doe make the highest sale in Boston?")
           T4 [py "Jane Doe"; py "Boston"]).
  - discriminate.
  - discriminate.
  - split.
    + intros j Hj; simpl in Hj; destruct Hj as [<-|[<-|[<-|[]]]];
        vm_compute; reflexivity.
    + vm_compute; reflexivity.
  - vm_compute; reflexivity.
Defined.

(* ================================================================== *)
(** ** Bounds on the aggregates *)

Lemma unique_length_le (l : list pystr) :
  List.length (Pd.unique l) <= List.length l.
Proof.
  induction l as [|x l IH]; simpl; [lia|].
  destruct (existsb (str_eqb x) l); simpl; lia.
Qed.

Lemma unique_nonempty (l : list pystr) : l <> [] -> Pd.unique l <> [].
Proof.
  intros Hne E; destruct l as [|x l]; [contradiction|].
  assert (H : In x (Pd.unique (x :: l))) by (apply unique_In; left; reflexivity).
  rewrite E in H; destruct H.
Qed.

(** X8 — The count of template 2 is at most the number of rows of the
    region, and at least 1 as soon as the region has a row. *)
Theorem X8_count_bounds :
  forall (data : list Row) (q region_ : pystr),
    data <> [] ->
    answers T2 [region_] q ->
    exists n : nat,
      answer_question (Pd.DataFrame_of data) q = ret (AInt (Z.of_nat n)) /\
      n <= List.length (rows_with region region_ data) /\
      (rows_with region region_ data <> [] -> 1 <= n).
Proof.
  intros data q region_ Hne [Hearlier Hk]; cbn [pattern_of earlier] in *.
  assert (H1 : no_match pattern1 q) by (apply (Hearlier T1); simpl; tauto).
  rewrite (dispatch2 _ _ _ H1 Hk), count_reps_of_rows by assumption.
  eexists; split; [reflexivity|]; split.
  - rewrite <- (length_map rep (rows_with region region_ data)).
    apply unique_length_le.
  - intros Hrows.
    assert (Hu : Pd.unique (map rep (rows_with region region_ data)) <> []).
    { apply unique_nonempty; intros E; apply map_eq_nil in E; contradiction. }
    destruct (Pd.unique _); [contradiction | simpl; lia].
Qed.

Lemma X8_count_bounds_witness :
  exists n : nat,
    answer_question (Pd.DataFrame_of scenario)
      (py "How many sales reps are there in East?") = ret (AInt (Z.of_nat n)) /\
    n <= List.length (rows_with region (py "East") scenario) /\
    (rows_with region (py "East") scenario <> [] -> 1 <= n).
Proof.
  apply (X8_count_bounds scenario (py "How many sales reps are there in East?")
           (py "East")).
  - discriminate.
  - split.
    + intros j Hj; simpl in Hj; destruct Hj as [<-|[]]; vm_compute; reflexivity.
    + vm_compute; reflexivity.
Defined.

(* ================================================================== *)
(** ** Captures taken as written *)

Lemma phrase2_match (w1 region_ tail : pystr) :
  same_nocase w1 (py "How many sales reps are there in ") ->
  captured_by Re.IGNORECASE set_ws region_ ->
  Re.search pattern2 (phrase2 w1 region_ tail) Re.IGNORECASE = Some [region_].
Proof.
  intros H1 Hr; apply search_here.
  unfold phrase2, pattern2; rewrite (match_lit_nocase _ _ _ _ H1).
  change (py "?" ++ tail) with ("?"%char :: tail).
  apply match_group_exact; [assumption | reflexivity | reflexivity].
Qed.

Lemma phrase3_match (w1 product_ w2 region_ tail : pystr) :
  same_nocase w1 (py "What is the average sales for ") ->
  same_nocase w2 (py " in ") ->
  captured_by Re.IGNORECASE set_w product_ ->
  captured_by Re.IGNORECASE set_ws region_ ->
  Re.search pattern3 (phrase3 w1 product_ w2 region_ tail) Re.IGNORECASE
  = Some [product_; region_].
Proof.
  intros H1 H2 Hp Hr; apply search_here.
  unfold phrase3, pattern3; rewrite (match_lit_nocase _ _ _ _ H1).
  destruct (same_nocase_head _ _ _ H2) as (x & w2' & -> & Hx & _).
  change ((x :: w2') ++ region_ ++ py "?" ++ tail)
    with (x :: (w2' ++ region_ ++ py "?" ++ tail)).
  apply match_group_exact; [assumption| |].
  - unfold Re.in_cset, set_w; cbn [existsb Re.in_item].
    rewrite <- is_word_lower, Hx; reflexivity.
  - change (x :: (w2' ++ region_ ++ py "?" ++ tail))
      with ((x :: w2') ++ region_ ++ py "?" ++ tail).
    rewrite (match_lit_nocase _ _ _ _ H2).
    change (py "?" ++ tail) with ("?"%char :: tail).
    apply match_group_exact; [assumption | reflexivity | reflexivity].
Qed.

(** X11 — In templates 2 and 3 the region is taken as written: whatever
    the case of the fixed words, the whole run of word characters and
    whitespace before the question mark is captured, leading, inner and
    trailing whitespace included, and it is this text that the rows are
    compared with. *)
Theorem X11_region_as_written :
  (forall (data : list Row) (w1 region_ tail : pystr),
      data <> [] ->
      same_nocase w1 (py "How many sales reps are there in ") ->
      captured_by Re.IGNORECASE set_ws region_ ->
      Re.search pattern2 (phrase2 w1 region_ tail) Re.IGNORECASE
      = Some [region_] /\
      (no_match pattern1 (phrase2 w1 region_ tail) ->
       exists n : nat,
         answer_question (Pd.DataFrame_of data) (phrase2 w1 region_ tail)
         = ret (AInt (Z.of_nat n)) /\
         distinct_count (map rep (rows_with region region_ data)) n)) /\
  (forall (data : list Row) (w1 product_ w2 region_ tail : pystr),
      data <> [] ->
      same_nocase w1 (py "What is the average sales for ") ->
      same_nocase w2 (py " in ") ->
      captured_by Re.IGNORECASE set_w product_ ->
      captured_by Re.IGNORECASE set_ws region_ ->
      Re.search pattern3 (phrase3 w1 product_ w2 region_ tail) Re.IGNORECASE
      = Some [product_; region_] /\
      (no_match pattern1 (phrase3 w1 product_ w2 region_ tail) ->
       no_match pattern2 (phrase3 w1 product_ w2 region_ tail) ->
       rows_with2 product region product_ region_ data = [] ->
       answer_question (Pd.DataFrame_of data)
         (phrase3 w1 product_ w2 region_ tail) = ret (AInt 0))).
Proof.
  split.
  - intros data w1 region_ tail Hne H1 Hr.
    pose proof (phrase2_match w1 region_ tail H1 Hr) as Hs.
    split; [exact Hs|]; intros Hno.
    destruct (count_reps_value data region_ Hne) as (n & Hn & Hd).
    exists n; rewrite (dispatch2 _ _ _ Hno Hs); split; assumption.
  - intros data w1 product_ w2 region_ tail Hne H1 H2 Hp Hr.
    pose proof (phrase3_match w1 product_ w2 region_ tail H1 H2 Hp Hr) as Hs.
    split; [exact Hs|]; intros Hno1 Hno2 Hrows.
    rewrite (dispatch3 _ _ _ Hno1 Hno2 Hs).
    apply (proj1 (average_sales_value data product_ region_ Hne)); assumption.
Qed.

(** Two spaces before the region: the second one is part of the capture,
    and no row has the region " East". *)
Lemma X11_region_as_written_witness :
  Re.search pattern2
    (phrase2 (py "how many sales reps are there in ") (py " East") [])
    Re.IGNORECASE
  = Some [py " East"] /\
  (no_match pattern1
     (phrase2 (py "how many sales reps are there in ") (py " East") []) ->
   exists n : nat,
     answer_question (Pd.DataFrame_of scenario)
       (phrase2 (py "how many sales reps are there in ") (py " East") [])
     = ret (AInt (Z.of_nat n)) /\
     distinct_count (map rep (rows_with region (py " East") scenario)) n).
Proof.
  apply (proj1 X11_region_as_written scenario
           (py "how many sales reps are there in ") (py " East") []).
  - discriminate.
  - reflexivity.
  - split; [discriminate | reflexivity].
Defined.

Example double_space_counts_nobody :
  answer_question (Pd.DataFrame_of scenario)
    (py "How many sales reps are there in  East?") = ret (AInt 0).
Proof. vm_compute; reflexivity. Qed.

Lemma lit_match_nth (l s r : pystr) (i : nat) (a : ascii) :
  Re.lit_match Re.IGNORECASE l s = Some r ->
  nth_error l i = Some a ->
  exists x, nth_error s i = Some x /\ Re.lower a = Re.lower x.
Proof.
  revert s i; induction l as [|a0 l IH]; intros s i; cbn [Re.lit_match].
  - destruct i; discriminate.
  - destruct s as [|x s]; [discriminate|].
    destruct (Re.chr_eqb Re.IGNORECASE a0 x) eqn:E; [|discriminate].
    intros H Hi; destruct i as [|i]; cbn [nth_error] in *.
    + injection Hi as <-; exists x; split; [reflexivity|].
      unfold Re.chr_eqb, Re.IGNORECASE in E; apply Ascii.eqb_eq; exact E.
    + eapply IH; eassumption.
Qed.

Lemma backtrack_skip (k : pystr -> option (list pystr)) (s : pystr) (n m0 : nat) :
  m0 <= n ->
  (forall m, m0 < m -> m <= n -> k (skipn m s) = None) ->
  Re.backtrack k s n = Re.backtrack k s m0.
Proof.
  induction n as [|n IH]; intros Hle Hnone.
  - replace m0 with 0 by lia; reflexivity.
  - destruct (Nat.eq_dec m0 (S n)) as [->|Hneq]; [reflexivity|].
    cbn [Re.backtrack]; rewrite (Hnone (S n)) by lia.
    apply IH; [lia|]; intros m H1 H2; apply Hnone; lia.
Qed.

Lemma span_le_stop (f : ascii -> bool) (a : pystr) (x : ascii) (rest : pystr) :
  f x = false -> Re.span f (a ++ x :: rest) <= List.length a.
Proof.
  intros Hx; induction a as [|c a IH]; simpl; [rewrite Hx; lia|].
  destruct (f c); lia.
Qed.

Lemma word_run_is_ws_run (g : pystr) :
  captured_by Re.IGNORECASE set_w g -> captured_by Re.IGNORECASE set_ws g.
Proof.
  intros [Hne Hg]; split; [assumption|].
  rewrite forallb_forall in Hg |- *; intros x Hx; specialize (Hg x Hx).
  apply in_set_ws; left; apply in_set_w; assumption.
Qed.

(** After the rep, no later start lets the rest of pattern 4 match when
    the city holds no whitespace. *)
Lemma pattern4_rest_fails (w2 c tail : pystr) (j : nat) :
  List.length w2 = 26 ->
  forallb (Re.in_cset Re.IGNORECASE set_w) c = true ->
  1 <= j -> j <= 26 + List.length c ->
  Re.lit_match Re.IGNORECASE (py " make the highest sale in ")
    (skipn j (w2 ++ c ++ "?"%char :: tail)) = None.
Proof.
  intros Hw Hc H1 H2.
  destruct (Re.lit_match _ _ _) as [r|] eqn:E; [exfalso|reflexivity].
  destruct (le_lt_dec j (List.length c)) as [Hj|Hj].
  - destruct (lit_match_nth _ _ _ 25 " "%char E eq_refl) as (x & Hx & Hl).
    rewrite nth_error_skipn, nth_error_app2 in Hx by lia.
    rewrite nth_error_app1 in Hx by lia.
    apply nth_error_In in Hx.
    rewrite forallb_forall in Hc; specialize (Hc x Hx).
    apply in_set_w in Hc; unfold word_char in Hc.
    rewrite <- is_word_lower, <- Hl in Hc; discriminate.
  - assert (Hi : 26 + List.length c - j < 26) by lia.
    destruct (nth_error (py " make the highest sale in ")
                (26 + List.length c - j)) as [a|] eqn:Ea.
    2:{ apply nth_error_None in Ea.
        change (List.length (py " make the highest sale in ")) with 26 in Ea.
        lia. }
    destruct (lit_match_nth _ _ _ _ a E Ea) as (x & Hx & Hl).
    rewrite nth_error_skipn, nth_error_app2 in Hx by lia.
    rewrite nth_error_app2 in Hx by lia.
    replace (j + (26 + List.length c - j) - List.length w2 - List.length c)
      with 0 in Hx by lia.
    injection Hx as <-.
    apply nth_error_In in Ea.
    assert (Hall : forallb (fun a0 => negb (Ascii.eqb (Re.lower a0)
                                              (Re.lower "?"%char)))
                     (py " make the highest sale in ") = true) by reflexivity.
    rewrite forallb_forall in Hall; specialize (Hall a Ea).
    rewrite Hl, Ascii.eqb_refl in Hall; discriminate.
Qed.

Lemma same_nocase_length (a b : pystr) :
  same_nocase a b -> List.length a = List.length b.
Proof.
  unfold same_nocase; intros H.
  rewrite <- (length_map Re.lower a), H, length_map; reflexivity.
Qed.

Lemma phrase4_cased_match (w1 rep_ w2 city_ tail : pystr) :
  same_nocase w1 (py "On what date did ") ->
  same_nocase w2 (py " make the highest sale in ") ->
  captured_by Re.IGNORECASE set_rep rep_ ->
  captured_by Re.IGNORECASE set_w city_ ->
  Re.match_here Re.IGNORECASE pattern4 (phrase4_cased w1 rep_ w2 city_ tail)
  = Some [rep_; city_].
Proof.
  intros H1 H2 [Hrne Hr] Hc.
  pose proof (same_nocase_length _ _ H2) as Hlen; simpl in Hlen.
  unfold phrase4_cased, pattern4; rewrite (match_lit_nocase _ _ _ _ H1).
  change (py "?" ++ tail) with ("?"%char :: tail).
  rewrite match_here_group.
  set (s := rep_ ++ w2 ++ city_ ++ "?"%char :: tail).
  assert (Hspan : Re.span (Re.in_cset Re.IGNORECASE set_rep) s
                  <= List.length rep_ + 26 + List.length city_).
  { unfold s.
    replace (rep_ ++ w2 ++ city_ ++ "?"%char :: tail)
      with ((rep_ ++ w2 ++ city_) ++ "?"%char :: tail)
      by (rewrite <- !app_assoc; reflexivity).
    etransitivity; [apply span_le_stop; reflexivity|].
    rewrite !length_app; lia. }
  rewrite (backtrack_skip _ s _ (List.length rep_)).
  - rewrite <- (firstn_exact rep_ (w2 ++ city_ ++ "?"%char :: tail)) at 2.
    apply backtrack_first.
    + destruct rep_; [contradiction | simpl; lia].
    + unfold s; rewrite skipn_exact, (match_lit_nocase _ _ _ _ H2).
      apply match_group_exact;
        [apply word_run_is_ws_run; assumption | reflexivity | reflexivity].
  - apply span_app_ge; assumption.
  - intros m Hm1 Hm2; unfold s.
    replace m with (List.length rep_ + (m - List.length rep_)) by lia.
    rewrite skipn_app, skipn_all2 by lia.
    replace (List.length rep_ + (m - List.length rep_) - List.length rep_)
      with (m - List.length rep_) by lia.
    cbn [app Re.match_here].
    rewrite pattern4_rest_fails; [reflexivity | assumption | apply Hc | lia | lia].
Qed.

(** X12 — In template 4, when the city is a single word, the rep is taken
    as written: whatever the case of the fixed words and whatever follows
    the question mark, the question is matched at its head and captures
    the rep whole (spaces, periods, apostrophes and hyphens included) and
    the city, even when the rep's text itself holds the words
    " make the highest sale in ". *)
Theorem X12_rep_as_written :
  forall (w1 rep_ w2 city_ tail : pystr),
    same_nocase w1 (py "On what date did ") ->
    same_nocase w2 (py " make the highest sale in ") ->
    rep_ <> [] -> Forall rep_char rep_ ->
    city_ <> [] -> Forall word_char city_ ->
    Re.search pattern4 (phrase4_cased w1 rep_ w2 city_ tail) Re.IGNORECASE
    = Some [rep_; city_].
Proof.
  intros w1 rep_ w2 city_ tail H1 H2 Hr1 Hr2 Hc1 Hc2.
  apply search_here, phrase4_cased_match; try assumption.
  - apply captured_by_rep; split; assumption.
  - split; [assumption|].
    apply (forallb_Forall _ word_char city_ in_set_w); assumption.
Qed.

Lemma X12_rep_as_written_witness :
  Re.search pattern4
    (phrase4_cased (py "ON WHAT DATE did ")
       (py "J. O'Neil-Doe make the highest sale in Austin")
       (py " make the highest sale in ") (py "Boston") (py " Thanks"))
    Re.IGNORECASE
  = Some [py "J. O'Neil-Doe make the highest sale in Austin"; py "Boston"].
Proof.
  apply (X12_rep_as_written (py "ON WHAT DATE did ")
           (py "J. O'Neil-Doe make the highest sale in Austin")
           (py " make the highest sale in ") (py "Boston") (py " Thanks")).
  - reflexivity.
  - reflexivity.
  - discriminate.
  - apply (proj1 (forallb_Forall _ rep_char _ in_set_rep)); reflexivity.
  - discriminate.
  - apply (proj1 (forallb_Forall _ word_char _ in_set_w)); reflexivity.
Defined.
